(** * pixeltalk service-image-generation: the audio-to-artwork pipeline

    A shallow embedding of the processing core of the service:
    - [services/video_prompt.py]   the structured video brief and its
      flattening into the prompt text sent to the video generator;
    - [services/db/neon.py]        status updates with per-session sequence
      numbers, and the completed-results table;
    - [configs/veo_client.py]      the polling wait on a video operation;
    - [services/audio_processor.py] the per-job driver, its media branches,
      the storage fallback and the worker loop.

    Conventions of the embedding.
    - A Python [str] is a [string]; every [ascii] stands for one character
      with a code point below 256, so [String.length] is Python's [len].
    - A dict with optional keys is a record whose optional keys are [option]
      fields; [None] is Python's [None] or an absent key, as noted per field.
    - An exception is its message [str(e)]; [Raise msg] is a raised
      [Exception].  [asyncio.CancelledError] is not an [Exception] and is
      outside the model.
    - The capabilities behind the network (speech-to-text, text, image and
      title models, the video provider, the media upload service, the
      environment variables) are an oracle record [env]; theorems quantify
      over it.
    - The persistence tables and the local file system are stores whose
      operations complete.  Logging, stage timings, the timestamps written
      next to rows and the token-usage telemetry (which only appends to the
      [openai_responses] table) touch nothing that is read back here and are
      left out. *)

From Stdlib Require Import ZArith Lia Bool Ascii.
From stdpp Require Import base option list gmap strings pretty.

Local Open Scope Z_scope.

(* ===================================================================== *)
(** ** Python string operations used by the sources *)
(* ===================================================================== *)

Module PyStr.

(** [str.isspace] on code points below 256: TAB..CR, FS..US, SPACE, NEL and
    NBSP. This is the set removed by [str.strip()]. *)
Definition isspace (c : ascii) : bool :=
  let n := nat_of_ascii c in
  (((9 <=? n) && (n <=? 13)) || ((28 <=? n) && (n <=? 32))
   || (n =? 133) || (n =? 160))%nat.

Fixpoint lstrip (s : string) : string :=
  match s with
  | EmptyString => EmptyString
  | String c r => if isspace c then lstrip r else s
  end.

Fixpoint rstrip (s : string) : string :=
  match s with
  | EmptyString => EmptyString
  | String c r =>
      match rstrip r with
      | EmptyString => if isspace c then EmptyString else String c EmptyString
      | r' => String c r'
      end
  end.

(** [s.strip()] *)
Definition strip (s : string) : string := rstrip (lstrip s).

(** [len(s)] *)
Definition len (s : string) : nat := String.length s.

(** Truth value of a string: [bool(s)], false exactly on the empty string. *)
Definition truthy (s : string) : bool :=
  match s with EmptyString => false | _ => true end.

(** Truth value of an optional string ([None] and [''] are false). *)
Definition truthy_opt (o : option string) : bool :=
  match o with Some s => truthy s | None => false end.

(** [str.lower] on one character below 256: A..Z and the Latin-1 capitals
    (0xC0..0xDE except the multiplication sign 0xD7) move up by 32. *)
Definition lower_char (c : ascii) : ascii :=
  let n := nat_of_ascii c in
  if (((65 <=? n) && (n <=? 90))
      || ((192 <=? n) && (n <=? 222) && negb (n =? 215)))%nat
  then ascii_of_nat (n + 32) else c.

Fixpoint lower (s : string) : string :=
  match s with
  | EmptyString => EmptyString
  | String c r => String (lower_char c) (lower r)
  end.

(** [sep.join(parts)] *)
Fixpoint join (sep : string) (parts : list string) : string :=
  match parts with
  | [] => EmptyString
  | [p] => p
  | p :: rest => p +:+ sep +:+ join sep rest
  end.

(** [s[:n]] *)
Fixpoint slice_to (n : nat) (s : string) : string :=
  match n, s with
  | O, _ => EmptyString
  | _, EmptyString => EmptyString
  | S k, String c r => String c (slice_to k r)
  end.

(** [str(n)] for a non-negative integer, as an f-string prints it. *)
Definition of_nat (n : nat) : string := pretty n.

(** The newline character of the literals "\n". *)
Definition nl : string := String (ascii_of_nat 10) EmptyString.

End PyStr.

(* ===================================================================== *)
(** ** services/video_prompt.py *)
(* ===================================================================== *)

Module VideoPromptGen.

(** The dict produced by [VideoPrompt.model_dump()]: every key is present.
    ([format_for_veo] reads [text] through [.get('text', 'none')]; with the
    key always present the default is never taken.) *)
Record VideoPrompt : Type := {
  description : string;
  style : string;
  camera : string;
  lighting : string;
  environment : string;
  elements : list string;
  motion : string;
  ending : string;
  text : string;
  keywords : list string
}.

(** Truth value of a list. *)
Definition nonempty {A} (l : list A) : bool :=
  match l with [] => false | _ => true end.

(** [VideoPromptGenerator.format_for_veo]: [prompt_parts] is built by
    successive appends and joined with one space. *)
Definition format_for_veo (p : VideoPrompt) : string :=
  let prompt_parts : list string := [] in
  let prompt_parts := prompt_parts ++ [description p] in
  let prompt_parts := prompt_parts ++ ["Visual style: " +:+ style p +:+ "."] in
  let prompt_parts := prompt_parts ++ ["Camera: " +:+ camera p +:+ "."] in
  let prompt_parts := prompt_parts ++ ["Lighting: " +:+ lighting p +:+ "."] in
  let prompt_parts :=
    if PyStr.truthy (environment p)
    then prompt_parts ++ ["Setting: " +:+ environment p +:+ "."]
    else prompt_parts in
  let prompt_parts :=
    if nonempty (elements p) then
      let elements_text :=
        "The scene includes " +:+ PyStr.join ", " (take 5 (elements p)) in
      let elements_text :=
        if (5 <? length (elements p))%nat
        then elements_text +:+ ", and "
             +:+ PyStr.of_nat (length (elements p) - 5)
             +:+ " more detailed elements"
        else elements_text in
      prompt_parts ++ [elements_text +:+ "."]
    else prompt_parts in
  let prompt_parts := prompt_parts ++ ["Motion: " +:+ motion p +:+ "."] in
  let prompt_parts :=
    prompt_parts ++ ["The video ends with " +:+ ending p +:+ "."] in
  let prompt_parts :=
    if nonempty (keywords p)
    then prompt_parts ++ ["Keywords: " +:+ PyStr.join ", " (keywords p) +:+ "."]
    else prompt_parts in
  let prompt_parts :=
    if String.eqb (PyStr.lower (text p)) "none"
    then prompt_parts ++ ["No text overlays."]
    else prompt_parts in
  PyStr.join " " prompt_parts.

(** The user message of [generate_video_prompt]. *)
Definition user_prompt (summary image_prompt : string)
    (transcript : option string) : string :=
  let parts :=
    ["Create a cinematic 8-second video prompt based on this content:";
     PyStr.nl +:+ "Audio Summary: " +:+ summary] in
  let parts :=
    if PyStr.truthy image_prompt
    then parts ++ [PyStr.nl +:+ "Related Visual Concept: " +:+ image_prompt]
    else parts in
  let parts :=
    if PyStr.truthy_opt transcript
    then parts ++ [PyStr.nl +:+ "Transcript excerpt: "
                   +:+ PyStr.slice_to 200 (default EmptyString transcript) +:+ "..."]
    else parts in
  let parts :=
    parts ++ [PyStr.nl +:+ "Transform this into an engaging, cinematic video narrative with rich visual details. "
              +:+ "The video should capture the emotional essence and key themes of the audio."] in
  PyStr.join PyStr.nl parts.

End VideoPromptGen.

(* ===================================================================== *)
(** ** services/db/neon.py *)
(* ===================================================================== *)

Module Neon.

(** The [additional_info] dict of a status row: its keys in insertion order
    (all values written by the pipeline are strings). *)
Definition info : Type := list (string * string).

(** A row of the [update_status] table. *)
Record status_row : Type := {
  row_session_id : string;
  row_status : string;
  row_sequence_number : Z;
  row_additional_info : option info   (* [None]: key not written *)
}.

(** The dict handed to [notify_user]; an absent key is [None]. *)
Record result_data : Type := {
  r_transcript : string;
  r_summary : string;
  r_title : string;
  r_generation_mode : string;
  r_status : string;
  r_image_url : option string;
  r_image_prompt : option string;
  r_video_url : option string;
  r_video_prompt : option VideoPromptGen.VideoPrompt
}.

(** The three tables touched by the pipeline. [update_counters] and
    [completed_results] are upserted on [session_id], hence maps. *)
Record database : Type := {
  tbl_update_counters : gmap string Z;
  tbl_update_status : list status_row;
  tbl_completed_results : gmap string result_data
}.

Definition empty_database : database :=
  {| tbl_update_counters := ∅; tbl_update_status := [];
     tbl_completed_results := ∅ |}.

(** Truth value of the optional dict argument. *)
Definition info_truthy (i : option info) : bool :=
  match i with Some (_ :: _) => true | _ => false end.

(** [NeonDatabase.update_status] *)
Definition update_status (session_id status : string)
    (additional_info : option info) (db : database) : database :=
  (* Get current count for this session *)
  let count_response := tbl_update_counters db !! session_id in
  (* Handle case where no counter exists yet *)
  let count := match count_response with Some c => c + 1 | None => 1 end in
  (* Upsert counter *)
  let counters := <[session_id := count]> (tbl_update_counters db) in
  (* Insert status update *)
  let data :=
    {| row_session_id := session_id;
       row_status := status;
       row_sequence_number := count;
       row_additional_info :=
         if info_truthy additional_info then additional_info else None |} in
  {| tbl_update_counters := counters;
     tbl_update_status := tbl_update_status db ++ [data];
     tbl_completed_results := tbl_completed_results db |}.

(** [NeonDatabase.notify_user]: forces [status] to 'completed' and upserts. *)
Definition notify_user (session_id : string) (final_result : result_data)
    (db : database) : database :=
  let final_result :=
    {| r_transcript := r_transcript final_result;
       r_summary := r_summary final_result;
       r_title := r_title final_result;
       r_generation_mode := r_generation_mode final_result;
       r_status := "completed";
       r_image_url := r_image_url final_result;
       r_image_prompt := r_image_prompt final_result;
       r_video_url := r_video_url final_result;
       r_video_prompt := r_video_prompt final_result |} in
  {| tbl_update_counters := tbl_update_counters db;
     tbl_update_status := tbl_update_status db;
     tbl_completed_results :=
       <[session_id := final_result]> (tbl_completed_results db) |}.

(** [.eq("session_id", session_id)] *)
Definition eq_session (session_id : string) (rows : list status_row)
    : list status_row :=
  List.filter (fun r => String.eqb (row_session_id r) session_id) rows.

(** [.order("sequence_number")]: ascending, ties in insertion order. *)
Fixpoint insert_by_sequence (r : status_row) (sorted : list status_row)
    : list status_row :=
  match sorted with
  | [] => [r]
  | x :: rest =>
      if row_sequence_number r <=? row_sequence_number x
      then r :: sorted
      else x :: insert_by_sequence r rest
  end.

Definition order_by_sequence_number (rows : list status_row)
    : list status_row :=
  foldr insert_by_sequence [] rows.

(** [NeonDatabase.get_status_updates] *)
Definition get_status_updates (session_id : string) (db : database)
    : list status_row :=
  order_by_sequence_number (eq_session session_id (tbl_update_status db)).

(** [NeonDatabase.get_session_results] *)
Definition get_session_results (session_id : string) (db : database)
    : option result_data :=
  tbl_completed_results db !! session_id.

(** What [GET /status/{id}] in main.py reads: the status of [updates[-1]]. *)
Definition latest_status (session_id : string) (db : database)
    : option string :=
  row_status <$> last (get_status_updates session_id db).

(** One call of [update_status], as issued by any client. *)
Record status_call : Type := {
  call_session_id : string;
  call_status : string;
  call_info : option info
}.

(** The database after a sequence of [update_status] calls. *)
Definition run_status_calls (calls : list status_call) (db : database)
    : database :=
  foldl (fun d c =>
           update_status (call_session_id c) (call_status c) (call_info c) d)
        db calls.

(** The calls of a sequence that concern one session. *)
Definition calls_of (session_id : string) (calls : list status_call)
    : list status_call :=
  List.filter (fun c => String.eqb (call_session_id c) session_id) calls.

(** The numbers 1, 2, .., n. *)
Definition numbers_from (a n : nat) : list Z := Z.of_nat <$> seq a n.

(** The counters agree with the rows: the rows of each session carry, in
    insertion order, the numbers 1..n, and its counter holds n (and is
    absent when there is no row). *)
Definition consistent (db : database) : Prop :=
  ∀ session_id,
    let rows := eq_session session_id (tbl_update_status db) in
    row_sequence_number <$> rows = numbers_from 1 (length rows)
    ∧ tbl_update_counters db !! session_id
      = match length rows with
        | O => None
        | S _ => Some (Z.of_nat (length rows))
        end.

(** The statuses of a session, as a reader of its history sees them. *)
Definition statuses (session_id : string) (db : database) : list string :=
  row_status <$> get_status_updates session_id db.

(** The calls [update_status(session_id, status, info)] for the given
    statuses and infos, in order. *)
Definition writes (session_id : string) (l : list (string * option info))
    : list status_call :=
  (fun p => {| call_session_id := session_id; call_status := p.1;
               call_info := p.2 |}) <$> l.

End Neon.

(* ===================================================================== *)
(** ** Exceptions, the outside world and the computation monad *)
(* ===================================================================== *)

Module Runtime.

(** The outcome of a call: a value, or a raised [Exception] with [str(e)]. *)
Inductive result (A : Type) : Type :=
  | Ok (a : A)
  | Raise (msg : string).
Arguments Ok {A} a.
Arguments Raise {A} msg.

(** [image_response.data[0]] of the image model. *)
Record image_data : Type := {
  img_url : option string;             (* [.url], [None] if missing/null *)
  img_b64_json : option string;        (* [.b64_json] *)
  img_revised_prompt : option string   (* [None]: no such attribute *)
}.

(** One entry of [response["videos"]]; [None] is an absent key. *)
Record video_entry : Type := {
  gcsUri : option string;
  bytesBase64Encoded : option string;
  mimeType : option string
}.

(** The dict returned by [wait_for_video], restricted to the keys that are
    written or read in the sources. For [vr_videoUri], [None] also stands
    for a key bound to [None]. *)
Record video_result : Type := {
  vr_status : option string;
  vr_operation_id : option string;
  vr_message : option string;
  vr_videoUri : option string;
  vr_videoBase64 : option string;
  vr_mimeType : option string
}.

(** [status["response"]]: the video list, and whatever else the provider
    put under the keys a caller of [wait_for_video] looks at. *)
Record response_data : Type := {
  videos : list video_entry;
  rd_other : video_result
}.

Definition empty_video_result : video_result :=
  {| vr_status := None; vr_operation_id := None; vr_message := None;
     vr_videoUri := None; vr_videoBase64 := None; vr_mimeType := None |}.

(** [{}], the default of [status.get("response", {})]. *)
Definition empty_response : response_data :=
  {| videos := []; rd_other := empty_video_result |}.

(** The JSON body of a [fetchPredictOperation] reply. *)
Record operation_status : Type := {
  done : bool;                      (* truth value of [status.get("done")] *)
  error : option string;            (* [Some]: key present; its rendering *)
  response : option response_data   (* [None]: key absent *)
}.

(** A poll of the provider: how long the request took, in clock ticks, and
    what it gave. *)
Record poll_reply : Type := {
  poll_latency : nat;
  poll_outcome : result operation_status
}.

(** The JSON body of a [predictLongRunning] reply. *)
Record operation : Type := {
  op_name : option string
}.

(** The capabilities outside the process. Each field is the outcome of the
    call on the given arguments. *)
Record env : Type := {
  (* openai_client.audio.transcriptions.create: bytes, filename -> .text *)
  transcriptions_create : list Byte.byte → string → result string;
  (* openai_client.responses.create: instructions, input -> .output_text *)
  responses_create : string → string → result string;
  (* openai_client.images.generate: prompt -> .data[0] *)
  images_generate : string → result image_data;
  (* aiohttp GET of the image URL *)
  http_get : string → result (list Byte.byte);
  (* openai_client.chat.completions.create with a text and an image part *)
  chat_completions_create : string → string → result string;
  (* openai_client.beta.chat.completions.parse with the VideoPrompt schema *)
  chat_completions_parse : string → result VideoPromptGen.VideoPrompt;
  (* base64.b64encode(..).decode('utf-8') and base64.b64decode *)
  b64encode : list Byte.byte → string;
  b64decode : string → result (list Byte.byte);
  (* str() of a brief dict inside an f-string *)
  str_of_brief : VideoPromptGen.VideoPrompt → string;
  (* the module-level cloudinary_service is not None *)
  cloudinary_service : bool;
  (* cloudinary_service.upload_image / upload_video: bytes, session_id,
     metadata -> upload_result["url"] *)
  upload_image : list Byte.byte → string → Neon.info → result string;
  upload_video : list Byte.byte → string → Neon.info → result string;
  (* os.getenv *)
  GCP_PROJECT_ID : option string;
  GCS_VIDEO_BUCKET : option string;
  (* VeoClient(project_id=..) *)
  veo_client_new : string → result unit;
  (* VeoClient.generate_video: prompt, storage_uri -> operation *)
  veo_generate_video : string → option string → result operation;
  (* VeoClient.get_operation_status: operation name, and the number of
     polls issued before this one *)
  veo_get_operation_status : string → nat → poll_reply
}.

(** What a local file holds. *)
Inductive file_content : Type :=
  | Bytes (b : list Byte.byte)
  | Text (s : string).

(** A request that left the process. *)
Inductive call : Type :=
  | CallTranscribe (filename : string)
  | CallResponses (instructions input : string)
  | CallImages (prompt : string)
  | CallHttpGet (url : string)
  | CallVisionChat (text_part image_url : string)
  | CallParse (user_prompt : string)
  | CallUploadImage (session_id : string)
  | CallUploadVideo (session_id : string)
  | CallVeoNew (project_id : string)
  | CallVeoGenerate (prompt : string)
  | CallVeoStatus (operation_name : string).

(** The state outside the database: local files, the requests issued so
    far, the event-loop clock, the number of polls issued, and the two
    lazily initialised module globals. *)
Record ext : Type := {
  x_files : gmap string file_content;
  x_calls : list call;
  x_clock : Z;
  x_polls : nat;
  x_video_prompt_generator : bool;
  x_veo_client : bool
}.

Definition empty_ext : ext :=
  {| x_files := ∅; x_calls := []; x_clock := 0; x_polls := 0;
     x_video_prompt_generator := false; x_veo_client := false |}.

(** A computation over a state [S]: [None] when a loop did not finish
    within its fuel, otherwise the outcome and the state it left. A raised
    exception keeps the state reached when it was raised. *)
Definition Comp (S A : Type) : Type := S → option (result A * S).

Definition ret {S A} (a : A) : Comp S A := fun s => Some (Ok a, s).

Definition raise {S A} (msg : string) : Comp S A :=
  fun s => Some (Raise msg, s).

Definition bind {S A B} (f : A → Comp S B) (m : Comp S A) : Comp S B :=
  fun s =>
    match m s with
    | Some (Ok a, s') => f a s'
    | Some (Raise msg, s') => Some (Raise msg, s')
    | None => None
    end.

#[global] Instance Comp_ret S : MRet (Comp S) := @ret S.
#[global] Instance Comp_bind S : MBind (Comp S) := @bind S.

(** [try: m  except Exception as e: h(str(e))] *)
Definition try_except {S A} (m : Comp S A) (h : string → Comp S A)
    : Comp S A :=
  fun s =>
    match m s with
    | Some (Ok a, s') => Some (Ok a, s')
    | Some (Raise msg, s') => h msg s'
    | None => None
    end.

(** One branch of [asyncio.gather(.., return_exceptions=True)]: the
    exception becomes the branch's value. *)
Definition capture {S A} (m : Comp S A) : Comp S (result A) :=
  fun s =>
    match m s with
    | Some (r, s') => Some (Ok r, s')
    | None => None
    end.

(** The outcome of a run, and the state it left. *)
Definition outcome {S A} (r : option (result A * S)) : option (result A) :=
  fst <$> r.

Definition final_state {S A} (r : option (result A * S)) : option S :=
  snd <$> r.

Definition G (A : Type) : Type := Comp ext A.

(** Issue a request: it is recorded, and its outcome is the oracle's. *)
Definition request {A} (c : call) (r : result A) : G A :=
  fun x =>
    Some (r, {| x_files := x_files x; x_calls := x_calls x ++ [c];
                x_clock := x_clock x; x_polls := x_polls x;
                x_video_prompt_generator := x_video_prompt_generator x;
                x_veo_client := x_veo_client x |}).

(** A library function that may raise. *)
Definition of_result {A} (r : result A) : G A := fun x => Some (r, x).

(** The state with one more file. *)
Definition put_file (path : string) (content : file_content) (x : ext) : ext :=
  {| x_files := <[path := content]> (x_files x);
     x_calls := x_calls x; x_clock := x_clock x;
     x_polls := x_polls x;
     x_video_prompt_generator := x_video_prompt_generator x;
     x_veo_client := x_veo_client x |}.

(** [os.makedirs(.., exist_ok=True); open(path, ..).write(content)] *)
Definition write_file (path : string) (content : file_content) : G unit :=
  fun x => Some (Ok tt, put_file path content x).

(** [asyncio.get_event_loop().time()] *)
Definition loop_time : G Z := fun x => Some (Ok (x_clock x), x).

(** [await asyncio.sleep(delay)]: a non-positive delay returns at once. *)
Definition sleep (delay : Z) : G unit :=
  fun x =>
    Some (Ok tt, {| x_files := x_files x; x_calls := x_calls x;
                    x_clock := x_clock x + Z.max 0 delay;
                    x_polls := x_polls x;
                    x_video_prompt_generator := x_video_prompt_generator x;
                    x_veo_client := x_veo_client x |}).

End Runtime.

(* ===================================================================== *)
(** ** configs/veo_client.py *)
(* ===================================================================== *)

Module Veo.
Import Runtime.

(** [VeoClient.get_operation_status]: one authenticated request. It takes
    [poll_latency] ticks of the clock and either raises or gives the body. *)
Definition get_operation_status (e : env) (operation_name : string)
    : G operation_status :=
  fun x =>
    let reply := veo_get_operation_status e operation_name (x_polls x) in
    Some (poll_outcome reply,
          {| x_files := x_files x;
             x_calls := x_calls x ++ [CallVeoStatus operation_name];
             x_clock := x_clock x + Z.of_nat (poll_latency reply);
             x_polls := S (x_polls x);
             x_video_prompt_generator := x_video_prompt_generator x;
             x_veo_client := x_veo_client x |}).

(** The statements of the inner [try] of [wait_for_video], after the poll:
    [Some r] when the function returns [r], [None] when control reaches
    the end of the block ("still processing"). *)
Definition check_status (status : operation_status)
    : G (option video_result) :=
  if done status then
    match error status with
    | Some err => raise ("Video generation failed: " +:+ err)
    | None =>
        let response_data := default empty_response (response status) in
        match videos response_data with
        | first_video :: _ =>
            match gcsUri first_video, bytesBase64Encoded first_video with
            | Some uri, _ =>
                mret (Some {| vr_status := Some "completed";
                              vr_operation_id := None;
                              vr_message := None;
                              vr_videoUri := Some uri;
                              vr_videoBase64 := None;
                              vr_mimeType :=
                                Some (default "video/mp4" (mimeType first_video)) |})
            | None, Some b64 =>
                mret (Some {| vr_status := Some "completed";
                              vr_operation_id := None;
                              vr_message := None;
                              vr_videoUri := None;
                              vr_videoBase64 := Some b64;
                              vr_mimeType :=
                                Some (default "video/mp4" (mimeType first_video)) |})
            | None, None => mret None
            end
        | [] => mret (Some (rd_other response_data))
        end
    end
  else mret None.

(** The inner [try .. except Exception: pass] of the loop body. *)
Definition poll_once (e : env) (operation_name : string)
    : G (option video_result) :=
  try_except
    (status ← get_operation_status e operation_name;
     check_status status)
    (fun _ => mret None).

Definition timeout_result (operation_name : string) : video_result :=
  {| vr_status := Some "timeout";
     vr_operation_id := Some operation_name;
     vr_message :=
       Some "Unable to check status. Video may still be processing.";
     vr_videoUri := None;
     vr_videoBase64 := None;
     vr_mimeType := None |}.

Definition error_result (operation_name msg : string) : video_result :=
  {| vr_status := Some "error";
     vr_operation_id := Some operation_name;
     vr_message := Some msg;
     vr_videoUri := None;
     vr_videoBase64 := None;
     vr_mimeType := None |}.

(** The [while] loop of [wait_for_video]; [fuel] bounds its iterations. *)
Fixpoint wait_loop (fuel : nat) (e : env) (operation_name : string)
    (start_time timeout_seconds poll_interval : Z) : G video_result :=
  match fuel with
  | O => fun _ => None
  | S fuel' =>
      now ← loop_time;
      if now - start_time <? timeout_seconds then
        r ← poll_once e operation_name;
        match r with
        | Some v => mret v
        | None =>
            sleep poll_interval;;
            wait_loop fuel' e operation_name
                      start_time timeout_seconds poll_interval
        end
      else
        (* Timeout reached *)
        mret (timeout_result operation_name)
  end.

(** [VeoClient.wait_for_video] *)
Definition wait_for_video (fuel : nat) (e : env) (operation_name : string)
    (timeout_seconds poll_interval : Z) : G video_result :=
  try_except
    (start_time ← loop_time;
     wait_loop fuel e operation_name start_time timeout_seconds poll_interval)
    (fun msg => mret (error_result operation_name msg)).

End Veo.

(* ===================================================================== *)
(** ** services/audio_processor.py *)
(* ===================================================================== *)

Module Processor.
Import Runtime.
Import VideoPromptGen.

(** The [except Exception as e: logger.error(..); raise] wrappers of the
    helper methods re-raise the same exception and are not repeated. *)

(** [AudioProcessor._transcribe] (the temporary file is private to it). *)
Definition _transcribe (e : env) (audio_content : list Byte.byte)
    (filename : string) : G string :=
  request (CallTranscribe filename)
          (transcriptions_create e audio_content filename).

Definition summarize_instructions : string :=
  "Create a concise 2-3 sentence summary that captures the key points and main theme.".

Definition placeholder_summary : string :=
  "Audio content was too brief or unclear to summarize.".

(** [AudioProcessor._summarize] *)
Definition _summarize (e : env) (transcript session_id : string) : G string :=
  (* Handle empty or very short transcripts *)
  if negb (PyStr.truthy transcript)
     || (PyStr.len (PyStr.strip transcript) <? 5)%nat
  then mret placeholder_summary
  else
    request (CallResponses summarize_instructions transcript)
            (responses_create e summarize_instructions transcript).

Definition image_prompt_instructions : string :=
  "Create an artistic, visually rich image prompt for DALL-E. Be creative and descriptive, focusing on visual elements, colors, composition, and mood. Maximum 100 words.".

(** [AudioProcessor._generate_image_prompt] *)
Definition _generate_image_prompt (e : env) (summary session_id : string)
    : G string :=
  request (CallResponses image_prompt_instructions summary)
          (responses_create e image_prompt_instructions summary).

(** [f"generated_images/{session_id}.png" if session_id else ..] *)
Definition local_image_path (session_id : string) : string :=
  if PyStr.truthy session_id
  then "generated_images/" +:+ session_id +:+ ".png"
  else "generated_images/test_image.png".

Definition local_video_path (session_id : string) : string :=
  "generated_videos/" +:+ session_id +:+ ".mp4".

(** Lines 449-481 of [_generate_image_from_prompt]: upload to the media
    service if enabled, otherwise (or on any exception) save locally. *)
Definition store_image (e : env) (image_bytes : list Byte.byte)
    (session_id summary revised_prompt : string) : G string :=
  if cloudinary_service e then
    try_except
      (request (CallUploadImage session_id)
         (upload_image e image_bytes session_id
            [("title", PyStr.slice_to 100 summary);
             ("prompt", revised_prompt);
             ("summary", summary)]))
      (fun _ =>
         (* Fallback to local storage *)
         let local_filename := local_image_path session_id in
         write_file local_filename (Bytes image_bytes);;
         mret local_filename)
  else
    (* Local storage only *)
    let local_filename := local_image_path session_id in
    write_file local_filename (Bytes image_bytes);;
    mret local_filename.

(** Lines 672-704 of [_generate_video], the same for a video. *)
Definition store_video (e : env) (video_bytes : list Byte.byte)
    (session_id summary : string) (video_prompt : VideoPrompt) : G string :=
  if cloudinary_service e then
    try_except
      (request (CallUploadVideo session_id)
         (upload_video e video_bytes session_id
            [("title", PyStr.slice_to 100 summary);
             ("prompt", str_of_brief e video_prompt);
             ("summary", summary)]))
      (fun _ =>
         let local_filename := local_video_path session_id in
         write_file local_filename (Bytes video_bytes);;
         mret local_filename)
  else
    let local_filename := local_video_path session_id in
    write_file local_filename (Bytes video_bytes);;
    mret local_filename.

(** [AudioProcessor._generate_image_from_prompt]:
    returns [(image_url, prompt_used, base64_image)]. *)
Definition _generate_image_from_prompt (e : env)
    (prompt summary session_id : string) : G (string * string * string) :=
  image_data ← request (CallImages prompt) (images_generate e prompt);
  '(image_bytes, image_base64) ←
     (if PyStr.truthy_opt (img_url image_data) then
        let url := default EmptyString (img_url image_data) in
        image_bytes ← request (CallHttpGet url) (http_get e url);
        mret (image_bytes, b64encode e image_bytes)
      else
        let image_base64 := default EmptyString (img_b64_json image_data) in
        if negb (PyStr.truthy image_base64)
        then raise "No image data received from API"
        else
          image_bytes ← of_result (b64decode e image_base64);
          mret (image_bytes, image_base64));
  let revised_prompt := default prompt (img_revised_prompt image_data) in
  image_url ← store_image e image_bytes session_id summary revised_prompt;
  mret (image_url, revised_prompt, image_base64).

(** [AudioProcessor._generate_image] *)
Definition _generate_image (e : env) (summary session_id : string)
    : G (string * string * string) :=
  prompt ← _generate_image_prompt e summary session_id;
  _generate_image_from_prompt e prompt summary session_id.

(** The value of [video_prompt or image_prompt]. *)
Inductive visual : Type :=
  | VisBrief (p : VideoPrompt)
  | VisText (s : string)
  | VisNone.

(** A dumped brief is a non-empty dict, hence true. *)
Definition prompt_or (video_prompt : option VideoPrompt)
    (image_prompt : option string) : visual :=
  match video_prompt, image_prompt with
  | Some p, _ => VisBrief p
  | None, Some s => VisText s
  | None, None => VisNone
  end.

Definition visual_truthy (v : visual) : bool :=
  match v with
  | VisBrief _ => true
  | VisText s => PyStr.truthy s
  | VisNone => false
  end.

Definition visual_str (e : env) (v : visual) : string :=
  match v with
  | VisBrief p => str_of_brief e p
  | VisText s => s
  | VisNone => "None"
  end.

Definition title_instructions : string :=
  "Create a short, catchy title (maximum 5 words) that captures the essence of the content.".

Definition vision_text (summary : string) : string :=
  "Based on this image and summary, create a short, catchy title (max 5 words) that captures the essence of both."
  +:+ PyStr.nl +:+ PyStr.nl +:+ "Summary: " +:+ summary.

(** The [input] of the text-only title request. *)
Definition title_input (e : env) (summary : string) (visual_prompt : visual)
    : string :=
  if visual_truthy visual_prompt
  then "Summary: " +:+ summary +:+ PyStr.nl +:+ PyStr.nl
       +:+ "Visual concept: " +:+ visual_str e visual_prompt
  else summary.

(** [AudioProcessor._generate_title] *)
Definition _generate_title (e : env) (image_base64 : option string)
    (summary : string) (visual_prompt : visual) (session_id : string)
    : G string :=
  if PyStr.truthy_opt image_base64 then
    (* Use vision model to analyze image and summary *)
    let url := "data:image/png;base64," +:+ default EmptyString image_base64 in
    request (CallVisionChat (vision_text summary) url)
            (chat_completions_create e (vision_text summary) url)
  else
    (* Use text-only model when no image available *)
    let input := title_input e summary visual_prompt in
    request (CallResponses title_instructions input)
            (responses_create e title_instructions input).

(** [video_prompt_generator = VideoPromptGenerator(openai_client)] on
    first use. *)
Definition init_video_prompt_generator : G unit :=
  fun x =>
    Some (Ok tt, {| x_files := x_files x; x_calls := x_calls x;
                    x_clock := x_clock x; x_polls := x_polls x;
                    x_video_prompt_generator := true;
                    x_veo_client := x_veo_client x |}).

Definition set_veo_client : G unit :=
  fun x =>
    Some (Ok tt, {| x_files := x_files x; x_calls := x_calls x;
                    x_clock := x_clock x; x_polls := x_polls x;
                    x_video_prompt_generator := x_video_prompt_generator x;
                    x_veo_client := true |}).

(** [if veo_client is None: ..] *)
Definition init_veo_client (e : env) : G unit :=
  fun x =>
    if x_veo_client x then Some (Ok tt, x)
    else
      match GCP_PROJECT_ID e with
      | Some gcp_project_id =>
          if PyStr.truthy gcp_project_id then
            (request (CallVeoNew gcp_project_id)
                     (veo_client_new e gcp_project_id);;
             set_veo_client) x
          else raise "GCP_PROJECT_ID must be set for video generation" x
      | None => raise "GCP_PROJECT_ID must be set for video generation" x
      end.

(** [VideoPromptGenerator.generate_video_prompt] *)
Definition generate_video_prompt (e : env) (summary image_prompt : string)
    (transcript : option string) : G VideoPrompt :=
  let user_prompt := user_prompt summary image_prompt transcript in
  request (CallParse user_prompt) (chat_completions_parse e user_prompt).

(** [operation['name']] *)
Definition operation_name_of (o : operation) : G string :=
  match op_name o with
  | Some n => mret n
  | None => raise "'name'"
  end.

Definition status_in (status : option string) (l : list string) : bool :=
  match status with
  | Some s => existsb (String.eqb s) l
  | None => false
  end.

(** [f"gs://{gcs_bucket}/videos/{session_id}/" if gcs_bucket else None] *)
Definition storage_uri (e : env) (session_id : string) : option string :=
  match GCS_VIDEO_BUCKET e with
  | Some gcs_bucket =>
      if PyStr.truthy gcs_bucket
      then Some ("gs://" +:+ gcs_bucket +:+ "/videos/" +:+ session_id +:+ "/")
      else None
  | None => None
  end.

(** The first part of the [try] of [_generate_video], up to the submitted
    operation: the brief and [operation['name']]. *)
Definition submit_video (e : env)
    (summary image_prompt transcript session_id : string)
    : G (VideoPrompt * string) :=
  (* Initialize clients if not already done *)
  init_video_prompt_generator;;
  init_veo_client e;;
  (* Generate structured video prompt *)
  video_prompt ←
    generate_video_prompt e summary image_prompt
      (if PyStr.truthy transcript
       then Some (PyStr.slice_to 500 transcript) else None);
  (* Convert to Veo-optimized text *)
  let veo_prompt_text := format_for_veo video_prompt in
  operation ←
    request (CallVeoGenerate veo_prompt_text)
            (veo_generate_video e veo_prompt_text
                                (storage_uri e session_id));
  name ← operation_name_of operation;
  mret (video_prompt, name).

(** The last part: from the result of the wait to [video_url]. *)
Definition resolve_video (e : env) (session_id summary : string)
    (video_prompt : VideoPrompt) (name : string)
    (video_result : video_result) : G (option string) :=
  if status_in (vr_status video_result) ["completed"] then
    if PyStr.truthy_opt (vr_videoUri video_result) then
      let gcs_uri := default EmptyString (vr_videoUri video_result) in
      write_file ("generated_videos/" +:+ session_id +:+ "_gcs.txt")
                 (Text gcs_uri);;
      mret (Some ("generated_videos/" +:+ session_id +:+ ".mp4"))
    else
      match vr_videoBase64 video_result with
      | Some b64 =>
          video_bytes ← of_result (b64decode e b64);
          url ← store_video e video_bytes session_id summary video_prompt;
          mret (Some url)
      | None => mret None
      end
  else if status_in (vr_status video_result)
                    ["submitted"; "timeout"; "error"] then
    (* Video is still processing or had an issue *)
    let operation_id := default name (vr_operation_id video_result) in
    write_file ("generated_videos/" +:+ session_id +:+ "_operation.txt")
               (Text operation_id);;
    mret (Some ("pending:" +:+ operation_id))
  else
    mret (Some ("pending:" +:+ name)).

(** The body of the [try] of [_generate_video]. *)
Definition video_body (fuel : nat) (e : env)
    (summary image_prompt transcript session_id : string)
    : G (option string * option VideoPrompt) :=
  '(video_prompt, name) ←
     submit_video e summary image_prompt transcript session_id;
  (* Wait for video generation to complete *)
  video_result ← Veo.wait_for_video fuel e name 90 10;
  (* Extract video URL and always save locally *)
  video_url ←
    resolve_video e session_id summary video_prompt name video_result;
  mret (video_url, Some video_prompt).

(** [AudioProcessor._generate_video]: any exception gives [(None, None)]. *)
Definition _generate_video (fuel : nat) (e : env)
    (summary image_prompt transcript session_id : string)
    : G (option string * option VideoPrompt) :=
  try_except
    (video_body fuel e summary image_prompt transcript session_id)
    (fun _ => mret (None, None)).

(** The state of a job: the database, the rest of the world, and the local
    variable [current_stage] of [_process_task]. *)
Record world : Type := {
  w_db : Neon.database;
  w_ext : ext;
  w_current_stage : string
}.

Definition M (A : Type) : Type := Comp world A.

(** Run a generation step inside a job: it does not see the database. *)
Definition lift {A} (g : G A) : M A :=
  fun w =>
    match g (w_ext w) with
    | Some (r, x') =>
        Some (r, {| w_db := w_db w; w_ext := x';
                    w_current_stage := w_current_stage w |})
    | None => None
    end.

(** [current_stage = s] *)
Definition set_stage (s : string) : M unit :=
  fun w =>
    Some (Ok tt, {| w_db := w_db w; w_ext := w_ext w;
                    w_current_stage := s |}).

Definition get_stage : M string :=
  fun w => Some (Ok (w_current_stage w), w).

(** [await db.update_status(..)] *)
Definition db_update_status (session_id status : string)
    (additional_info : option Neon.info) : M unit :=
  fun w =>
    Some (Ok tt,
          {| w_db := Neon.update_status session_id status additional_info
                                        (w_db w);
             w_ext := w_ext w;
             w_current_stage := w_current_stage w |}).

(** [await db.notify_user(..)] *)
Definition db_notify_user (session_id : string)
    (result_data : Neon.result_data) : M unit :=
  fun w =>
    Some (Ok tt,
          {| w_db := Neon.notify_user session_id result_data (w_db w);
             w_ext := w_ext w;
             w_current_stage := w_current_stage w |}).

(** The media variables of [_process_task] after stage 3. *)
Record media : Type := {
  image_url : option string;
  image_prompt : option string;
  image_base64 : option string;
  video_url : option string;
  video_prompt : option VideoPrompt
}.

(** [generation_mode in [..]] *)
Definition mode_in (generation_mode : string) (l : list string) : bool :=
  existsb (String.eqb generation_mode) l.

(** The ["both"] branch of stage 3. The two coroutines given to
    [asyncio.gather] share no file, and only the video one reads the clock;
    they are run one after the other. *)
Definition media_both (fuel : nat) (e : env)
    (session_id transcript summary : string) : M media :=
  db_update_status session_id "generating_media"
    (Some [("image", "in_progress"); ("video", "in_progress")]);;
  (* First, generate the image prompt (needed for both) *)
  image_prompt ← lift (_generate_image_prompt e summary session_id);
  (* Run both in parallel *)
  results0 ←
    lift (capture (_generate_image_from_prompt e image_prompt summary
                                               session_id));
  results1 ←
    lift (capture (_generate_video fuel e summary image_prompt transcript
                                   session_id));
  (* Handle image result *)
  '(image_url, image_base64) ←
     match results0 with
     | Raise msg =>
         db_update_status session_id "generating_media"
           (Some [("image", "failed"); ("video", "in_progress");
                  ("image_error", msg)]);;
         mret (None, None)
     | Ok (url, _, b64) =>
         db_update_status session_id "generating_media"
           (Some [("image", "completed"); ("video", "in_progress")]);;
         mret (Some url, Some b64)
     end;
  (* Handle video result *)
  '(video_url, video_prompt) ←
     match results1 with
     | Raise msg =>
         db_update_status session_id "generating_media"
           (Some [("image",
                   if PyStr.truthy_opt image_url
                   then "completed" else "failed");
                  ("video", "failed");
                  ("video_error", msg)]);;
         mret (None, None)
     | Ok (video_url, video_prompt) => mret (video_url, video_prompt)
     end;
  mret {| image_url := image_url; image_prompt := Some image_prompt;
          image_base64 := image_base64; video_url := video_url;
          video_prompt := video_prompt |}.

(** Stage 3 of [_process_task]. *)
Definition generate_media (fuel : nat) (e : env)
    (session_id generation_mode transcript summary : string) : M media :=
  let generate_image := mode_in generation_mode ["image"; "both"] in
  let generate_video := mode_in generation_mode ["video"; "both"] in
  if String.eqb generation_mode "both" then
    media_both fuel e session_id transcript summary
  else if generate_image then
    (* Image only mode *)
    db_update_status session_id "generating_image" None;;
    '(image_url, image_prompt, image_base64) ←
       lift (_generate_image e summary session_id);
    mret {| image_url := Some image_url; image_prompt := Some image_prompt;
            image_base64 := Some image_base64; video_url := None;
            video_prompt := None |}
  else if generate_video then
    (* Video only mode *)
    db_update_status session_id "generating_video" None;;
    (* Still need an image prompt for video generation *)
    image_prompt ← lift (_generate_image_prompt e summary session_id);
    '(video_url, video_prompt) ←
       lift (_generate_video fuel e summary image_prompt transcript
                             session_id);
    mret {| image_url := None; image_prompt := Some image_prompt;
            image_base64 := None; video_url := video_url;
            video_prompt := video_prompt |}
  else
    mret {| image_url := None; image_prompt := None; image_base64 := None;
            video_url := None; video_prompt := None |}.

(** The [result_data] dict of stage 6: media keys are added only for a
    true URL. *)
Definition make_result_data (transcript summary title generation_mode : string)
    (m : media) : Neon.result_data :=
  {| Neon.r_transcript := transcript;
     Neon.r_summary := summary;
     Neon.r_title := title;
     Neon.r_generation_mode := generation_mode;
     Neon.r_status := "completed";
     Neon.r_image_url :=
       if PyStr.truthy_opt (image_url m) then image_url m else None;
     Neon.r_image_prompt :=
       if PyStr.truthy_opt (image_url m) then image_prompt m else None;
     Neon.r_video_url :=
       if PyStr.truthy_opt (video_url m) then video_url m else None;
     Neon.r_video_prompt :=
       if PyStr.truthy_opt (video_url m) then video_prompt m else None |}.

(** The body of the [try] of [_process_task]. *)
Definition process_body (fuel : nat) (e : env)
    (session_id : string) (audio_content : list Byte.byte)
    (filename generation_mode : string) : M unit :=
  (* Stage 1: Transcribe *)
  set_stage "transcription";;
  db_update_status session_id "transcribing" None;;
  transcript ← lift (_transcribe e audio_content filename);
  (* Stage 2: Summarize *)
  set_stage "summarization";;
  db_update_status session_id "summarizing" None;;
  summary ← lift (_summarize e transcript session_id);
  (* Stage 3: Generate media (image and/or video) *)
  set_stage "media_generation";;
  m ← generate_media fuel e session_id generation_mode transcript summary;
  (* Stage 5: Generate title *)
  set_stage "title_generation";;
  db_update_status session_id "generating_title" None;;
  title ←
    lift (_generate_title e (image_base64 m) summary
            (prompt_or (video_prompt m) (image_prompt m)) session_id);
  (* Stage 6: Store results *)
  set_stage "storing_results";;
  db_update_status session_id "storing" None;;
  db_notify_user session_id
    (make_result_data transcript summary title generation_mode m);;
  (* Final status update to mark as completed *)
  db_update_status session_id "completed" None.

(** [AudioProcessor._process_task] *)
Definition _process_task (fuel : nat) (e : env)
    (session_id : string) (audio_content : list Byte.byte)
    (filename generation_mode : string) : M unit :=
  set_stage "initialization";;
  try_except
    (process_body fuel e session_id audio_content filename generation_mode)
    (fun msg =>
       current_stage ← get_stage;
       (* Update status with error info *)
       db_update_status session_id "failed"
         (Some [("error", msg); ("stage", current_stage)]);;
       raise msg).

(** A queued job. *)
Record task : Type := {
  t_session_id : string;
  t_audio_content : list Byte.byte;
  t_filename : string;
  t_generation_mode : string
}.

(** One iteration of the [while True] of [AudioProcessor._worker], for the
    task taken from the queue. *)
Definition worker_iteration (fuel : nat) (e : env) (t : task) : M unit :=
  try_except
    (_process_task fuel e (t_session_id t) (t_audio_content t)
                   (t_filename t) (t_generation_mode t))
    (fun msg =>
       db_update_status (t_session_id t) "failed" (Some [("error", msg)])).


(** A step of a job keeps the counters and rows of the database in
    agreement. *)
Definition keeps_consistent {A} (m : M A) : Prop :=
  ∀ w r w',
    m w = Some (r, w') →
    Neon.consistent (w_db w) → Neon.consistent (w_db w').

(** A step of a job moves the database along a relation [R]. *)
Definition respects (R : Neon.database → Neon.database → Prop) {A}
    (m : M A) : Prop :=
  ∀ w r w', m w = Some (r, w') → R (w_db w) (w_db w').

(** Two databases show the same history and the same result for every
    session other than [session_id]. *)
Definition same_elsewhere (session_id : string) (db db' : Neon.database)
    : Prop :=
  ∀ other,
    other ≠ session_id →
    Neon.get_status_updates other db' = Neon.get_status_updates other db
    ∧ Neon.get_session_results other db' = Neon.get_session_results other db.

Definition initial_world : world :=
  {| w_db := Neon.empty_database; w_ext := empty_ext;
     w_current_stage := EmptyString |}.

End Processor.

(* ===================================================================== *)
(** ** main.py: the status endpoint *)
(* ===================================================================== *)

Module Main.
Import Neon.

(** The [StatusResponse] model. *)
Record StatusResponse : Type := {
  resp_session_id : string;
  resp_status : string;
  resp_stage : option string;
  resp_result : option result_data;
  resp_error : option string
}.

(** What the handler gives: a response body, or a raised [HTTPException]. *)
Inductive http (A : Type) : Type :=
  | Response (body : A)
  | HTTPException (status_code : Z) (detail : string).
Arguments Response {A} body.
Arguments HTTPException {A} status_code detail.

(** [d.get(key)] on an [additional_info] dict. *)
Fixpoint info_get (key : string) (d : info) : option string :=
  match d with
  | [] => None
  | (k, v) :: rest => if String.eqb k key then Some v else info_get key rest
  end.

(** [GET /status/{session_id}]. Every row has a [status] key, so the
    default of [latest.get('status', 'unknown')] is not taken. A row is
    read back as the dict [update_status] inserted: one written without
    [additional_info] has no such key and takes the default [{}]. (A table
    that gives the column back as [None] would make the handler answer
    500 in that one case; no row the worker writes as 'failed' lacks its
    [additional_info], so the results below do not reach it.) *)
Definition get_status (session_id : string) (db : database)
    : http StatusResponse :=
  (* Get latest status updates *)
  let updates := get_status_updates session_id db in
  match last updates with
  | None => HTTPException 404 "Session not found"
  | Some latest =>
      let current_status := row_status latest in
      if String.eqb current_status "completed" then
        (* Get the full result *)
        Response {| resp_session_id := session_id;
                    resp_status := "completed";
                    resp_stage := None;
                    resp_result := get_session_results session_id db;
                    resp_error := None |}
      else if String.eqb current_status "failed" then
        (* Get error info *)
        let error_info := default [] (row_additional_info latest) in
        Response {| resp_session_id := session_id;
                    resp_status := "failed";
                    resp_stage := None;
                    resp_result := None;
                    resp_error :=
                      Some (default "Unknown error"
                                    (info_get "error" error_info)) |}
      else
        (* Still processing *)
        Response {| resp_session_id := session_id;
                    resp_status := "processing";
                    resp_stage := Some current_status;
                    resp_result := None;
                    resp_error := None |}
  end.

End Main.

(* ===================================================================== *)
(** ** The flattening contract, as the specification words it *)
(* ===================================================================== *)

Module Contract.
Import VideoPromptGen.

(** ['n'/'N'], ['o'/'O'], ['n'/'N'], ['e'/'E'] and nothing else. *)
Definition is_none_ci (s : string) : bool :=
  match s with
  | String c1 (String c2 (String c3 (String c4 EmptyString))) =>
      (Ascii.eqb c1 "n" || Ascii.eqb c1 "N")
      && (Ascii.eqb c2 "o" || Ascii.eqb c2 "O")
      && (Ascii.eqb c3 "n" || Ascii.eqb c3 "N")
      && (Ascii.eqb c4 "e" || Ascii.eqb c4 "E")
  | _ => false
  end.

(** The clauses of the flattened prompt in their contractual order:
    description, style, camera, lighting, environment (if non-empty), the
    first five elements with the count of the others (if more than five),
    motion, ending, keywords, and the no-text clause (if [text] is 'none'
    whatever the case). *)
Definition flatten_spec (p : VideoPrompt) : string :=
  description p
  +:+ " Visual style: " +:+ style p +:+ "."
  +:+ " Camera: " +:+ camera p +:+ "."
  +:+ " Lighting: " +:+ lighting p +:+ "."
  +:+ (if decide (environment p = EmptyString) then EmptyString
       else " Setting: " +:+ environment p +:+ ".")
  +:+ " The scene includes " +:+ PyStr.join ", " (take 5 (elements p))
  +:+ (if decide (5 < length (elements p))%nat
       then ", and " +:+ PyStr.of_nat (length (elements p) - 5)
            +:+ " more detailed elements"
       else EmptyString)
  +:+ "."
  +:+ " Motion: " +:+ motion p +:+ "."
  +:+ " The video ends with " +:+ ending p +:+ "."
  +:+ " Keywords: " +:+ PyStr.join ", " (keywords p) +:+ "."
  +:+ (if is_none_ci (text p) then " No text overlays." else EmptyString).

End Contract.

(* ===================================================================== *)
(** ** Properties of the polling wait, and concrete environments *)
(* ===================================================================== *)

Module Scenarios.
Import Runtime.
Import VideoPromptGen.

(** No poll of the operation ever reports [done]: each one raises or gives
    a body whose [done] is false. *)
Definition never_done (e : env) (operation_name : string) : Prop :=
  ∀ k,
    match poll_outcome (veo_get_operation_status e operation_name k) with
    | Ok status => done status = false
    | Raise _ => True
    end.

(** Every poll of the operation answers at once. *)
Definition instant_polls (e : env) (operation_name : string) : Prop :=
  ∀ k, poll_latency (veo_get_operation_status e operation_name k) = 0%nat.

(** The statement on the number of polls, as the specification has it: if
    no poll reports [done], the wait ends with the timeout result and has
    issued [timeout_seconds / poll_interval] polls, give or take one. *)
Definition polls_within_one (e : env) (operation_name : string)
    (timeout_seconds poll_interval : Z) (x : ext) : Prop :=
  never_done e operation_name →
  ∃ fuel x',
    Veo.wait_for_video fuel e operation_name timeout_seconds poll_interval x
    = Some (Ok (Veo.timeout_result operation_name), x')
    ∧ timeout_seconds / poll_interval - 1
      ≤ Z.of_nat (x_polls x') - Z.of_nat (x_polls x)
      ≤ timeout_seconds / poll_interval + 1.

Definition brief0 : VideoPrompt :=
  {| description := "A tide pool at dawn"; style := "cinematic";
     camera := "slow push in"; lighting := "golden hour";
     environment := "rocky shore";
     elements := ["crab"; "kelp"; "foam"; "gull"; "mist"; "shell"; "sun";
                  "rock"];
     motion := "gentle"; ending := "the sun on the water";
     text := "none"; keywords := ["sea"; "calm"; "dawn"; "tide"; "light"] |}.

Definition image0 : list Byte.byte := [Byte.x89; Byte.x50; Byte.x4e; Byte.x47].

(** An environment in which every capability answers, except for what the
    arguments say: [texts] is the text model, [upload] the outcome of any
    upload to the media service (used when [cloud] is set), [gcp] the
    configured project, [submit] the outcome of the video submission and
    [poll] the provider's reply to the k-th poll. *)
Definition scenario (texts : string → string → result string)
    (cloud : bool) (upload : result string) (gcp : option string)
    (submit : result operation) (poll : nat → poll_reply) : env :=
  {| transcriptions_create := fun _ _ => Ok "we walked along the shore at dawn";
     responses_create := texts;
     images_generate := fun _ =>
       Ok {| img_url := None; img_b64_json := Some "iVBORw==";
             img_revised_prompt := None |};
     http_get := fun _ => Raise "connection refused";
     chat_completions_create := fun _ _ => Ok "Dawn at the Shore";
     chat_completions_parse := fun _ => Ok brief0;
     b64encode := fun _ => "iVBORw==";
     b64decode := fun _ => Ok image0;
     str_of_brief := fun _ => "{'description': 'A tide pool at dawn'}";
     cloudinary_service := cloud;
     upload_image := fun _ _ _ => upload;
     upload_video := fun _ _ _ => upload;
     GCP_PROJECT_ID := gcp;
     GCS_VIDEO_BUCKET := None;
     veo_client_new := fun _ => Ok tt;
     veo_generate_video := fun _ _ => submit;
     veo_get_operation_status := fun _ k => poll k |}.

(** A text model that answers every request. *)
Definition texts_ok (instructions input : string) : result string :=
  if String.eqb instructions Processor.summarize_instructions
  then Ok "A walk along the shore at dawn."
  else if String.eqb instructions Processor.image_prompt_instructions
  then Ok "A luminous tide pool under a pink sky"
  else Ok "Shoreline at Dawn".

(** A text model that fails on the image-prompt request only. *)
Definition texts_no_image_prompt (instructions input : string)
    : result string :=
  if String.eqb instructions Processor.image_prompt_instructions
  then Raise "rate limit exceeded"
  else texts_ok instructions input.

Definition submitted : result operation :=
  Ok {| op_name := Some "operations/42" |}.

(** A poll that answers after [latency] ticks that the operation is still
    running. *)
Definition still_running (latency : nat) (k : nat) : poll_reply :=
  {| poll_latency := latency;
     poll_outcome := Ok {| done := false; error := None; response := None |} |}.

(** A poll that answers at once that the operation is done, with an error. *)
Definition done_with_error (k : nat) : poll_reply :=
  {| poll_latency := 0;
     poll_outcome :=
       Ok {| done := true; error := Some "quota exceeded";
             response := None |} |}.

(** A poll whose request fails. *)
Definition poll_fails (k : nat) : poll_reply :=
  {| poll_latency := 0; poll_outcome := Raise "Operation status error: 503 - unavailable" |}.

(** The provider answers each poll only after 20 ticks. *)
Definition env_slow_polls : env :=
  scenario texts_ok false (Raise "unused") (Some "pixeltalk") submitted
           (still_running 20).

(** The provider reports the operation as done with an error. *)
Definition env_done_with_error : env :=
  scenario texts_ok false (Raise "unused") (Some "pixeltalk") submitted
           done_with_error.

(** No project is configured for the video provider. *)
Definition env_no_project : env :=
  scenario texts_ok false (Raise "unused") None submitted (still_running 0).

(** The text model refuses the image-prompt request. *)
Definition env_no_image_prompt : env :=
  scenario texts_no_image_prompt false (Raise "unused") (Some "pixeltalk")
           submitted (still_running 0).

(** Every poll of the provider fails. *)
Definition env_polls_fail : env :=
  scenario texts_ok false (Raise "unused") (Some "pixeltalk") submitted
           poll_fails.


(** A poll that answers at once that the operation is done, with one video
    available both in storage and inline, and a second video. *)
Definition done_with_video (k : nat) : poll_reply :=
  {| poll_latency := 0;
     poll_outcome :=
       Ok {| done := true; error := None;
             response :=
               Some {| videos :=
                         [{| gcsUri := Some "gs://pixeltalk/videos/session-1/sample_0.mp4";
                             bytesBase64Encoded := Some "AAAAIGZ0eXA=";
                             mimeType := None |};
                          {| gcsUri := Some "gs://pixeltalk/videos/session-1/sample_1.mp4";
                             bytesBase64Encoded := None;
                             mimeType := Some "video/webm" |}];
                       rd_other := empty_video_result |} |} |}.

(** A poll that answers that the operation is done, with no video. *)
Definition done_without_video (k : nat) : poll_reply :=
  {| poll_latency := 0;
     poll_outcome :=
       Ok {| done := true; error := None; response := None |} |}.

(** The video is ready at the first poll. *)
Definition env_video_ready : env :=
  scenario texts_ok false (Raise "unused") (Some "pixeltalk") submitted
           done_with_video.

(** The first two polls fail, the third finds the video. *)
Definition env_flaky_polls : env :=
  scenario texts_ok false (Raise "unused") (Some "pixeltalk") submitted
           (fun k => if (k <? 2)%nat then poll_fails k else done_with_video k).

(** The operation is reported done but carries no video. *)
Definition env_done_without_video : env :=
  scenario texts_ok false (Raise "unused") (Some "pixeltalk") submitted
           done_without_video.


(** The environment [e] with another image model. *)
Definition with_images (f : string → result image_data) (e : env) : env :=
  {| transcriptions_create := transcriptions_create e;
     responses_create := responses_create e;
     images_generate := f;
     http_get := http_get e;
     chat_completions_create := chat_completions_create e;
     chat_completions_parse := chat_completions_parse e;
     b64encode := b64encode e;
     b64decode := b64decode e;
     str_of_brief := str_of_brief e;
     cloudinary_service := cloudinary_service e;
     upload_image := upload_image e;
     upload_video := upload_video e;
     GCP_PROJECT_ID := GCP_PROJECT_ID e;
     GCS_VIDEO_BUCKET := GCS_VIDEO_BUCKET e;
     veo_client_new := veo_client_new e;
     veo_generate_video := veo_generate_video e;
     veo_get_operation_status := veo_get_operation_status e |}.

(** The environment [e] with another vision model. *)
Definition with_vision (f : string → string → result string) (e : env) : env :=
  {| transcriptions_create := transcriptions_create e;
     responses_create := responses_create e;
     images_generate := images_generate e;
     http_get := http_get e;
     chat_completions_create := f;
     chat_completions_parse := chat_completions_parse e;
     b64encode := b64encode e;
     b64decode := b64decode e;
     str_of_brief := str_of_brief e;
     cloudinary_service := cloudinary_service e;
     upload_image := upload_image e;
     upload_video := upload_video e;
     GCP_PROJECT_ID := GCP_PROJECT_ID e;
     GCS_VIDEO_BUCKET := GCS_VIDEO_BUCKET e;
     veo_client_new := veo_client_new e;
     veo_generate_video := veo_generate_video e;
     veo_get_operation_status := veo_get_operation_status e |}.


(** The image model refuses the prompt. *)
Definition env_no_image : env :=
  with_images (fun _ => Raise "content policy violation") env_no_project.

(** The image model answers with neither a URL nor inline data. *)
Definition env_empty_image : env :=
  with_images (fun _ => Ok {| img_url := None; img_b64_json := None;
                              img_revised_prompt := None |})
              env_no_project.

(** The vision model fails on the title request. *)
Definition env_no_vision_title : env :=
  with_vision (fun _ _ => Raise "model overloaded") env_no_project.

End Scenarios.

(* ===================================================================== *)
(** ** Facts about the string operations *)
(* ===================================================================== *)

(** Let [simpl] compute an append whose left operand is a literal. *)
#[local] Arguments String.append !s1 s2 : simpl nomatch.

Lemma append_assoc (a b c : string) : (a +:+ b) +:+ c = a +:+ (b +:+ c).
Proof. induction a as [|ch a IH]; simpl; [reflexivity | f_equal; exact IH]. Qed.

Lemma append_empty_r (a : string) : a +:+ EmptyString = a.
Proof. induction a as [|ch a IH]; simpl; [reflexivity | f_equal; exact IH]. Qed.

Lemma truthy_false_iff (s : string) : PyStr.truthy s = false ↔ s = EmptyString.
Proof. destruct s; simpl; split; intros H; congruence. Qed.

Lemma truthy_true_iff (s : string) : PyStr.truthy s = true ↔ s ≠ EmptyString.
Proof. destruct s; simpl; split; intros H; congruence. Qed.

Lemma lower_char_n (c : ascii) :
  PyStr.lower_char c = "n"%char ↔ c = "n"%char ∨ c = "N"%char.
Proof.
  destruct c as [[] [] [] [] [] [] [] []];
    vm_compute; split; intros H;
    try discriminate H; try (destruct H as [H|H]; discriminate H); auto.
Qed.

Lemma lower_char_o (c : ascii) :
  PyStr.lower_char c = "o"%char ↔ c = "o"%char ∨ c = "O"%char.
Proof.
  destruct c as [[] [] [] [] [] [] [] []];
    vm_compute; split; intros H;
    try discriminate H; try (destruct H as [H|H]; discriminate H); auto.
Qed.

Lemma lower_char_e (c : ascii) :
  PyStr.lower_char c = "e"%char ↔ c = "e"%char ∨ c = "E"%char.
Proof.
  destruct c as [[] [] [] [] [] [] [] []];
    vm_compute; split; intros H;
    try discriminate H; try (destruct H as [H|H]; discriminate H); auto.
Qed.

Lemma ascii_eqb_or (c a b : ascii) :
  (Ascii.eqb c a || Ascii.eqb c b) = true ↔ c = a ∨ c = b.
Proof.
  rewrite orb_true_iff, !Ascii.eqb_eq. reflexivity.
Qed.

(** [text.lower() == 'none'] holds exactly for the sixteen spellings of
    'none' in upper and lower case. *)
Lemma lower_is_none (s : string) :
  String.eqb (PyStr.lower s) "none" = Contract.is_none_ci s.
Proof.
  apply eq_true_iff_eq. rewrite String.eqb_eq.
  destruct s as [|c1 [|c2 [|c3 [|c4 [|c5 s]]]]]; simpl;
    try (split; intros H; discriminate H).
  rewrite !andb_true_iff, !ascii_eqb_or.
  rewrite <- !lower_char_n, <- lower_char_o, <- lower_char_e.
  split.
  - intros H. injection H as -> -> -> ->. auto.
  - intros [[[-> ->] ->] ->]. reflexivity.
Qed.

(* ===================================================================== *)
(** ** The flattened prompt (services/video_prompt.py) *)
(* ===================================================================== *)

Section Flatten.
Import VideoPromptGen.

Lemma nonempty_true {A} (l : list A) : l ≠ [] → nonempty l = true.
Proof. destruct l; [congruence | reflexivity]. Qed.

Lemma join_two (sep a b : string) : PyStr.join sep [a; b] = a +:+ sep +:+ b.
Proof. reflexivity. Qed.

Lemma join_cons (sep a b : string) (l : list string) :
  PyStr.join sep (a :: b :: l) = a +:+ sep +:+ PyStr.join sep (b :: l).
Proof. reflexivity. Qed.

Lemma join_one (sep a : string) : PyStr.join sep [a] = a.
Proof. reflexivity. Qed.

(** C6. For every brief with at least one element and one keyword (the
    schema asks for 8 to 12 and 5 to 10), [format_for_veo] is the
    concatenation, in this order, of: the description; the style, camera and
    lighting clauses; the setting clause when [environment] is not empty; the
    clause listing the first five elements, which ends with
    ", and {n-5} more detailed elements" exactly when there are more than
    five; the motion, ending and keywords clauses; and "No text overlays."
    exactly when [text] is 'none' in any mix of cases. *)
Theorem format_for_veo_clauses (p : VideoPrompt) :
  elements p ≠ [] →
  keywords p ≠ [] →
  format_for_veo p = Contract.flatten_spec p.
Proof.
  intros He Hk.
  unfold format_for_veo, Contract.flatten_spec.
  rewrite (nonempty_true _ He), (nonempty_true _ Hk), lower_is_none.
  assert (Henv : PyStr.truthy (environment p)
                 = if decide (environment p = EmptyString) then false else true).
  { destruct (environment p); reflexivity. }
  rewrite Henv.
  assert (Hlen : (5 <? length (elements p))%nat
                 = if decide (5 < length (elements p))%nat
                   then true else false).
  { destruct (decide (5 < length (elements p))%nat) as [H|H].
    - apply Nat.ltb_lt; exact H.
    - apply Nat.ltb_ge; lia. }
  rewrite Hlen.
  destruct (decide (environment p = EmptyString)),
           (decide (5 < length (elements p))%nat),
           (Contract.is_none_ci (text p));
    cbn [app]; rewrite ?join_cons, ?join_one;
    rewrite ?append_assoc, ?append_empty_r; reflexivity.
Qed.

(** A brief with seven elements, in mixed-case 'none'. *)
Lemma format_for_veo_clauses_witness :
  format_for_veo
    {| description := "A tide pool at dawn"; style := "cinematic";
       camera := "slow push in"; lighting := "golden hour";
       environment := "rocky shore";
       elements := ["crab"; "kelp"; "foam"; "gull"; "mist"; "shell"; "sun"];
       motion := "gentle"; ending := "the sun on the water";
       text := "NoNe"; keywords := ["sea"; "calm"] |}
  = "A tide pool at dawn Visual style: cinematic. Camera: slow push in. Lighting: golden hour. Setting: rocky shore. The scene includes crab, kelp, foam, gull, mist, and 2 more detailed elements. Motion: gentle. The video ends with the sun on the water. Keywords: sea, calm. No text overlays.".
Proof.
  rewrite format_for_veo_clauses; [reflexivity | discriminate | discriminate].
Defined.

End Flatten.

(* ===================================================================== *)
(** ** Status sequence numbers (services/db/neon.py) *)
(* ===================================================================== *)

Section NeonFacts.
Import Neon.

Lemma eq_session_app (sid : string) (l1 l2 : list status_row) :
  eq_session sid (l1 ++ l2) = eq_session sid l1 ++ eq_session sid l2.
Proof. unfold eq_session. apply List.filter_app. Qed.

Lemma numbers_from_snoc (a n : nat) :
  numbers_from a (S n) = numbers_from a n ++ [Z.of_nat (a + n)].
Proof.
  unfold numbers_from. rewrite seq_S, fmap_app. reflexivity.
Qed.

Lemma consistent_empty : consistent empty_database.
Proof.
  intros sid. simpl. split; [reflexivity | apply lookup_empty].
Qed.

Lemma consistent_update_status (s st : string) (i : option info)
    (db : database) :
  consistent db → consistent (update_status s st i db).
Proof.
  intros Hc sid. destruct (Hc sid) as [Hseq Hcnt].
  cbn [update_status tbl_update_status tbl_update_counters] in *.
  rewrite eq_session_app.
  destruct (String.eqb_spec s sid) as [->|Hne].
  - cbn [eq_session List.filter row_session_id].
    rewrite String.eqb_refl, length_app, fmap_app.
    cbn [length fmap list_fmap row_sequence_number].
    rewrite Nat.add_1_r, numbers_from_snoc, lookup_insert_eq.
    fold (eq_session sid (tbl_update_status db)).
    rewrite Hseq, Hcnt.
    destruct (length (eq_session sid (tbl_update_status db)));
      split; repeat f_equal; lia.
  - cbn [eq_session List.filter row_session_id].
    apply String.eqb_neq in Hne. rewrite Hne, app_nil_r.
    fold (eq_session sid (tbl_update_status db)).
    split; [exact Hseq|].
    rewrite lookup_insert_ne; [exact Hcnt|].
    intros ->. rewrite String.eqb_refl in Hne. discriminate.
Qed.

Lemma consistent_notify_user (s : string) (r : result_data) (db : database) :
  consistent db → consistent (notify_user s r db).
Proof. intros Hc sid. exact (Hc sid). Qed.

Lemma consistent_run (calls : list status_call) (db : database) :
  consistent db → consistent (run_status_calls calls db).
Proof.
  revert db. induction calls as [|c calls IH]; intros db Hc; [exact Hc|].
  apply IH, consistent_update_status, Hc.
Qed.

(** Rows that already carry increasing numbers are left in place by the
    ordering of the read. *)
Lemma order_increasing (rows : list status_row) (a : nat) :
  row_sequence_number <$> rows = numbers_from a (length rows) →
  order_by_sequence_number rows = rows.
Proof.
  revert a. induction rows as [|r rows IH]; intros a H; [reflexivity|].
  cbn [length] in H. unfold numbers_from in H. cbn [seq fmap list_fmap] in H.
  injection H as Hr Hrest.
  unfold order_by_sequence_number in *. cbn [foldr].
  rewrite (IH (S a) Hrest).
  destruct rows as [|x rows]; [reflexivity|].
  cbn [insert_by_sequence].
  cbn [length seq fmap list_fmap] in Hrest. injection Hrest as Hx _.
  rewrite Hr, Hx.
  destruct (Z.leb_spec (Z.of_nat a) (Z.of_nat (S a))); [reflexivity | lia].
Qed.

Lemma consistent_history (sid : string) (db : database) :
  consistent db →
  get_status_updates sid db = eq_session sid (tbl_update_status db).
Proof.
  intros Hc. destruct (Hc sid) as [Hseq _].
  unfold get_status_updates. eapply order_increasing, Hseq.
Qed.

Lemma run_status_rows (sid : string) (calls : list status_call)
    (db : database) :
  row_status <$> eq_session sid (tbl_update_status (run_status_calls calls db))
  = (row_status <$> eq_session sid (tbl_update_status db))
    ++ (call_status <$> calls_of sid calls).
Proof.
  revert db. induction calls as [|c calls IH]; intros db.
  - cbn. rewrite app_nil_r. reflexivity.
  - change (run_status_calls (c :: calls) db)
      with (run_status_calls calls
              (update_status (call_session_id c) (call_status c)
                             (call_info c) db)).
    rewrite IH.
    cbn [update_status tbl_update_status calls_of List.filter].
    rewrite eq_session_app, fmap_app, <- app_assoc. f_equal.
    cbn [eq_session List.filter row_session_id].
    destruct (String.eqb (call_session_id c) sid); reflexivity.
Qed.


End NeonFacts.

(* ===================================================================== *)
(** ** The polling wait (configs/veo_client.py) *)
(* ===================================================================== *)

Section VeoFacts.
Import Runtime.
Import Veo.
Import Scenarios.

Ltac unfold_comp :=
  unfold mbind, Comp_bind, bind, mret, Comp_ret, ret, raise, try_except.

(** When the poll does not report [done], the loop body falls through. *)
Lemma poll_once_continue (e : env) (op : string) (x : ext) :
  match poll_outcome (veo_get_operation_status e op (x_polls x)) with
  | Ok status => done status = false
  | Raise _ => True
  end →
  poll_once e op x
  = Some (Ok None,
          {| x_files := x_files x;
             x_calls := x_calls x ++ [CallVeoStatus op];
             x_clock := x_clock x
                        + Z.of_nat (poll_latency
                                      (veo_get_operation_status e op (x_polls x)));
             x_polls := S (x_polls x);
             x_video_prompt_generator := x_video_prompt_generator x;
             x_veo_client := x_veo_client x |}).
Proof.
  intros H. unfold poll_once, get_operation_status. unfold_comp.
  destruct (poll_outcome (veo_get_operation_status e op (x_polls x)))
    as [status|msg]; [|reflexivity].
  unfold check_status. rewrite H. reflexivity.
Qed.

(** A poll that reports [done] with an [error] key raises inside the inner
    [try]; the inner handler swallows the exception and the body falls
    through like a poll that is still running. *)
Lemma poll_once_done_error (e : env) (op err : string) (x : ext)
    (status : operation_status) :
  poll_outcome (veo_get_operation_status e op (x_polls x)) = Ok status →
  done status = true →
  error status = Some err →
  ∃ x', poll_once e op x = Some (Ok None, x') ∧ x_polls x' = S (x_polls x).
Proof.
  intros Hs Hd He. unfold poll_once, get_operation_status. unfold_comp.
  rewrite Hs. unfold check_status. rewrite Hd, He. unfold_comp.
  eexists. split; reflexivity.
Qed.

(** More fuel does not change the result of the loop. *)
Lemma wait_loop_fuel_mono (e : env) (op : string) (start T p : Z)
    (fuel fuel' : nat) (x : ext) (r : result video_result * ext) :
  (fuel ≤ fuel')%nat →
  wait_loop fuel e op start T p x = Some r →
  wait_loop fuel' e op start T p x = Some r.
Proof.
  revert fuel' x. induction fuel as [|fuel IH]; intros fuel' x Hle H.
  - discriminate H.
  - destruct fuel' as [|fuel']; [lia|].
    cbn [wait_loop] in *. revert H. unfold loop_time, sleep. unfold_comp.
    destruct (x_clock x - start <? T); [|exact id].
    destruct (poll_once e op x) as [[[[v|]|msg] x1]|]; try exact id.
    apply IH. lia.
Qed.

Lemma wait_for_video_fuel_mono (e : env) (op : string) (T p : Z)
    (fuel fuel' : nat) (x : ext) (r : result video_result * ext) :
  (fuel ≤ fuel')%nat →
  wait_for_video fuel e op T p x = Some r →
  wait_for_video fuel' e op T p x = Some r.
Proof.
  intros Hle. unfold wait_for_video, loop_time. unfold_comp.
  destruct (wait_loop fuel e op (x_clock x) T p x) as [r0|] eqn:H;
    [|discriminate].
  rewrite (wait_loop_fuel_mono _ _ _ _ _ _ _ _ _ Hle H). exact id.
Qed.

(** The loop when no poll reports [done]: it ends with the timeout result
    after [n] polls, where [n] is bounded by the time that was left. *)
Lemma wait_loop_timeout (e : env) (op : string) (start T p : Z) :
  0 < p →
  never_done e op →
  ∀ (fuel : nat) (x : ext),
    T - (x_clock x - start) ≤ Z.of_nat fuel * p →
    ∃ (n : nat) (x' : ext),
      wait_loop (S fuel) e op start T p x
      = Some (Ok (timeout_result op), x')
      ∧ x_polls x' = (x_polls x + n)%nat
      ∧ (T - (x_clock x - start) ≤ 0 → n = 0%nat)
      ∧ (0 < T - (x_clock x - start) →
         (1 ≤ n)%nat ∧ (Z.of_nat n - 1) * p < T - (x_clock x - start))
      ∧ (instant_polls e op → T - (x_clock x - start) ≤ Z.of_nat n * p).
Proof.
  intros Hp Hnd fuel. induction fuel as [|fuel IH]; intros x Hrem.
  - exists 0%nat, x. cbn [wait_loop]. unfold loop_time. unfold_comp.
    destruct (Z.ltb_spec (x_clock x - start) T) as [Hlt|Hge]; [lia|].
    repeat split; try lia.
  - cbn [wait_loop]. unfold loop_time. unfold_comp.
    destruct (Z.ltb_spec (x_clock x - start) T) as [Hlt|Hge].
    + rewrite (poll_once_continue e op x (Hnd (x_polls x))).
      unfold sleep.
      set (l := Z.of_nat (poll_latency
                            (veo_get_operation_status e op (x_polls x)))).
      set (x1 := {| x_files := x_files x;
                    x_calls := x_calls x ++ [CallVeoStatus op];
                    x_clock := x_clock x + l + Z.max 0 p;
                    x_polls := S (x_polls x);
                    x_video_prompt_generator := x_video_prompt_generator x;
                    x_veo_client := x_veo_client x |}).
      assert (Hl : 0 ≤ l) by (unfold l; lia).
      destruct (IH x1) as (n & x' & Hrun & Hpolls & Hzero & Hpos & Hinst).
      { cbn [x1 x_clock]. lia. }
      exists (S n), x'. cbn [x1 x_clock x_polls] in *.
      split; [exact Hrun|].
      split; [lia|].
      split; [lia|].
      split.
      * intros _. split; [lia|].
        destruct (Z_le_gt_dec (T - (x_clock x + l + Z.max 0 p - start)) 0)
          as [Hd|Hd].
        -- rewrite (Hzero Hd). lia.
        -- destruct (Hpos ltac:(lia)) as [_ Hb]. lia.
      * intros Hi. specialize (Hinst Hi).
        assert (l = 0) as Hl0 by (unfold l; rewrite (Hi (x_polls x)); lia).
        lia.
    + exists 0%nat, x. repeat split; try lia.
Qed.

(** C3. On the failing input - every poll reports [done] with an [error]
    key - the wait does not stop at the first poll: the exception raised for
    the error is caught by the handler of the inner [try], the loop goes on
    polling, and after nine polls the wait returns the timeout result. *)
Theorem wait_for_video_done_with_error :
  outcome (wait_for_video 10 env_done_with_error "operations/42" 90 10
                          empty_ext)
  = Some (Ok (timeout_result "operations/42"))
  ∧ x_polls <$> final_state (wait_for_video 10 env_done_with_error
                                            "operations/42" 90 10 empty_ext)
    = Some 9%nat.
Proof. split; vm_compute; reflexivity. Qed.

(** C4, as amended. For a positive poll interval and a non-negative
    timeout, if no poll reports [done], the wait returns the timeout result
    and does not raise, whatever the fuel above [timeout / interval + 1].
    The number [n] of polls issued is at most [timeout / interval + 1]
    (and at least one when the timeout is positive); when the polls answer
    at once it is also at least [timeout / interval]. *)
Theorem wait_for_video_timeout (e : env) (op : string) (T p : Z) (x : ext) :
  0 < p →
  0 ≤ T →
  never_done e op →
  ∃ (n : nat) (x' : ext),
    (∀ fuel, (Z.to_nat (T / p) + 2 ≤ fuel)%nat →
       wait_for_video fuel e op T p x = Some (Ok (timeout_result op), x'))
    ∧ x_polls x' = (x_polls x + n)%nat
    ∧ Z.of_nat n ≤ T / p + 1
    ∧ (0 < T → (1 ≤ n)%nat)
    ∧ (instant_polls e op → T / p ≤ Z.of_nat n).
Proof.
  intros Hp HT Hnd.
  assert (Hdiv : 0 ≤ T / p) by (apply Z.div_pos; lia).
  pose proof (Z.mul_succ_div_gt T p Hp) as Hgt.
  destruct (wait_loop_timeout e op (x_clock x) T p Hp Hnd
              (Z.to_nat (T / p) + 1) x)
    as (n & x' & Hrun & Hpolls & Hzero & Hpos & Hinst).
  { rewrite Nat2Z.inj_add, Z2Nat.id by lia. lia. }
  exists n, x'.
  split.
  { intros fuel Hfuel.
    apply (wait_for_video_fuel_mono e op T p (S (Z.to_nat (T / p) + 1)));
      [lia|].
    unfold wait_for_video, loop_time. unfold_comp.
    rewrite Hrun. reflexivity. }
  split; [exact Hpolls|].
  replace (T - (x_clock x - x_clock x)) with T in * by lia.
  split.
  { destruct (Z_le_gt_dec T 0) as [H0|H0].
    - rewrite (Hzero H0). lia.
    - destruct (Hpos ltac:(lia)) as [_ Hb].
      assert (Z.of_nat n - 1 ≤ T / p); [|lia].
      apply Z.div_le_lower_bound; lia. }
  split.
  { intros H0. apply Hpos. exact H0. }
  intros Hi. specialize (Hinst Hi).
  apply Z.div_le_upper_bound; lia.
Qed.

Lemma never_done_still_running (latency : nat) :
  never_done (scenario texts_ok false (Raise "unused") (Some "pixeltalk")
                       submitted (still_running latency))
             "operations/42".
Proof. intros k. reflexivity. Qed.

(** With the timeout and interval of the pipeline and polls that answer at
    once, nine polls are issued. *)
Lemma wait_for_video_timeout_witness :
  ∃ (n : nat) (x' : ext),
    (∀ fuel, (Z.to_nat (90 / 10) + 2 ≤ fuel)%nat →
       wait_for_video fuel
         (scenario texts_ok false (Raise "unused") (Some "pixeltalk")
                   submitted (still_running 0))
         "operations/42" 90 10 empty_ext
       = Some (Ok (timeout_result "operations/42"), x'))
    ∧ x_polls x' = (x_polls empty_ext + n)%nat
    ∧ Z.of_nat n ≤ 90 / 10 + 1
    ∧ (0 < 90 → (1 ≤ n)%nat)
    ∧ (instant_polls
         (scenario texts_ok false (Raise "unused") (Some "pixeltalk")
                   submitted (still_running 0))
         "operations/42" →
       90 / 10 ≤ Z.of_nat n).
Proof.
  apply wait_for_video_timeout;
    [lia | lia | apply never_done_still_running].
Defined.

(** C4, as stated, fails: with the pipeline's timeout of 90 and interval of
    10, when each poll takes 20 ticks to answer "still running", the wait
    times out after three polls, not after eight to ten. *)
Lemma polls_within_one_fails :
  ¬ polls_within_one env_slow_polls "operations/42" 90 10 empty_ext.
Proof.
  intros H.
  destruct (H (never_done_still_running 20)) as (fuel & x' & Hrun & Hb).
  assert (Hx3 : x_polls <$> final_state
                   (wait_for_video 4 env_slow_polls "operations/42" 90 10
                                   empty_ext)
                = Some 3%nat) by (vm_compute; reflexivity).
  destruct (wait_for_video 4 env_slow_polls "operations/42" 90 10 empty_ext)
    as [[r3 x3]|] eqn:E; [|discriminate Hx3].
  cbn in Hx3. injection Hx3 as Hx3.
  apply (wait_for_video_fuel_mono _ _ _ _ _ (Nat.max fuel 4)) in Hrun;
    [|lia].
  apply (wait_for_video_fuel_mono _ _ _ _ _ (Nat.max fuel 4)) in E; [|lia].
  rewrite Hrun in E. injection E as _ <-.
  rewrite Hx3 in Hb. vm_compute in Hb.
  destruct Hb as [Hb _]. apply Hb. reflexivity.
Qed.

End VeoFacts.

(* ===================================================================== *)
(** ** The media branches and the storage fallback
       (services/audio_processor.py) *)
(* ===================================================================== *)

Section StageFacts.
Import Runtime.
Import Processor.

Ltac unfold_comp :=
  unfold mbind, Comp_bind, bind, mret, Comp_ret, ret, raise, try_except.

(** C5. For every transcript that is empty or whose stripped length is
    below 5, [_summarize] returns the fixed placeholder and leaves the
    state as it was: no request is issued, in particular not the
    summarization request, and nothing is raised. *)
Theorem summarize_short_transcript (e : env) (transcript session_id : string)
    (x : ext) :
  transcript = EmptyString
  ∨ (PyStr.len (PyStr.strip transcript) < 5)%nat →
  _summarize e transcript session_id x
  = Some (Ok "Audio content was too brief or unclear to summarize.", x).
Proof.
  intros H. unfold _summarize.
  assert (Hc : negb (PyStr.truthy transcript)
               || (PyStr.len (PyStr.strip transcript) <? 5)%nat = true).
  { apply orb_true_iff. destruct H as [->|H].
    - left. reflexivity.
    - right. apply Nat.ltb_lt. exact H. }
  rewrite Hc. reflexivity.
Qed.

(** A transcript of two letters between blanks. *)
Lemma summarize_short_transcript_witness :
  _summarize Scenarios.env_slow_polls "  ok   " "session-1" empty_ext
  = Some (Ok "Audio content was too brief or unclear to summarize.",
          empty_ext).
Proof.
  apply summarize_short_transcript. right. vm_compute. lia.
Defined.

(** A longer transcript is sent to the text model. *)
Lemma summarize_long_transcript (e : env) (transcript session_id : string)
    (x : ext) :
  (5 ≤ PyStr.len (PyStr.strip transcript))%nat →
  outcome (_summarize e transcript session_id x)
  = Some (responses_create e summarize_instructions transcript)
  ∧ x_calls <$> final_state (_summarize e transcript session_id x)
    = Some (x_calls x ++ [CallResponses summarize_instructions transcript]).
Proof.
  intros H. unfold _summarize.
  assert (Hc : negb (PyStr.truthy transcript)
               || (PyStr.len (PyStr.strip transcript) <? 5)%nat = false).
  { apply orb_false_iff. split.
    - destruct transcript; [cbn in H; lia | reflexivity].
    - apply Nat.ltb_ge. exact H. }
  rewrite Hc. split; reflexivity.
Qed.



End StageFacts.

(* ===================================================================== *)
(** ** The job driver and the worker (services/audio_processor.py) *)
(* ===================================================================== *)

Section JobFacts.
Import Runtime.
Import Processor.
Import Neon.

Ltac unfold_comp :=
  unfold mbind, Comp_bind, bind, mret, Comp_ret, ret, raise, try_except.

Lemma process_body_video (fuel : nat) (e : env) (sid : string)
    (audio : list Byte.byte) (fname : string) (w : world)
    (transcript summary ip title : string)
    (vu : option string) (vp : option VideoPromptGen.VideoPrompt)
    (x1 x2 x3 x4 x5 : ext) :
  _transcribe e audio fname (w_ext w) = Some (Ok transcript, x1) →
  _summarize e transcript sid x1 = Some (Ok summary, x2) →
  _generate_image_prompt e summary sid x2 = Some (Ok ip, x3) →
  _generate_video fuel e summary ip transcript sid x3
  = Some (Ok (vu, vp), x4) →
  _generate_title e None summary (prompt_or vp (Some ip)) sid x4
  = Some (Ok title, x5) →
  process_body fuel e sid audio fname "video" w
  = Some (Ok tt,
          {| w_db :=
               notify_user sid
                 (make_result_data transcript summary title "video"
                    {| image_url := None; image_prompt := Some ip;
                       image_base64 := None; video_url := vu;
                       video_prompt := vp |})
                 (run_status_calls
                    (writes sid [("transcribing", None);
                                 ("summarizing", None);
                                 ("generating_video", None);
                                 ("generating_title", None);
                                 ("storing", None);
                                 ("completed", None)])
                    (w_db w));
             w_ext := x5;
             w_current_stage := "storing_results" |}).
Proof.
  intros H1 H2 H3 H4 H5.
  unfold process_body, generate_media. unfold_comp.
  unfold set_stage, db_update_status, db_notify_user, lift.
  cbn [w_ext w_db w_current_stage].
  rewrite H1. cbn [w_ext w_db w_current_stage]. rewrite H2.
  change (String.eqb "video" "both") with false.
  change (mode_in "video" ["image"; "both"]) with false.
  change (mode_in "video" ["video"; "both"]) with true.
  cbn [w_ext w_db w_current_stage]. rewrite H3.
  cbn [w_ext w_db w_current_stage]. rewrite H4.
  cbn [w_ext w_db w_current_stage image_base64 video_prompt image_prompt].
  rewrite H5. reflexivity.
Qed.

Lemma process_body_both (fuel : nat) (e : env) (sid : string)
    (audio : list Byte.byte) (fname : string) (w : world)
    (transcript summary ip title : string)
    (r0 : result (string * string * string))
    (vu : option string) (vp : option VideoPromptGen.VideoPrompt)
    (x1 x2 x3 x4 x5 x6 : ext) :
  _transcribe e audio fname (w_ext w) = Some (Ok transcript, x1) →
  _summarize e transcript sid x1 = Some (Ok summary, x2) →
  _generate_image_prompt e summary sid x2 = Some (Ok ip, x3) →
  _generate_image_from_prompt e ip summary sid x3 = Some (r0, x4) →
  _generate_video fuel e summary ip transcript sid x4
  = Some (Ok (vu, vp), x5) →
  _generate_title e
    (match r0 with Ok (_, _, b64) => Some b64 | Raise _ => None end)
    summary (prompt_or vp (Some ip)) sid x5
  = Some (Ok title, x6) →
  process_body fuel e sid audio fname "both" w
  = Some (Ok tt,
          {| w_db :=
               notify_user sid
                 (make_result_data transcript summary title "both"
                    {| image_url :=
                         match r0 with
                         | Ok (url, _, _) => Some url
                         | Raise _ => None
                         end;
                       image_prompt := Some ip;
                       image_base64 :=
                         match r0 with
                         | Ok (_, _, b64) => Some b64
                         | Raise _ => None
                         end;
                       video_url := vu;
                       video_prompt := vp |})
                 (run_status_calls
                    (writes sid
                       [("transcribing", None);
                        ("summarizing", None);
                        ("generating_media",
                         Some [("image", "in_progress");
                               ("video", "in_progress")]);
                        ("generating_media",
                         Some match r0 with
                              | Ok _ => [("image", "completed");
                                         ("video", "in_progress")]
                              | Raise msg => [("image", "failed");
                                              ("video", "in_progress");
                                              ("image_error", msg)]
                              end);
                        ("generating_title", None);
                        ("storing", None);
                        ("completed", None)])
                    (w_db w));
             w_ext := x6;
             w_current_stage := "storing_results" |}).
Proof.
  intros H1 H2 H3 H4 H5 H6.
  unfold process_body, generate_media, media_both, capture. unfold_comp.
  unfold set_stage, db_update_status, db_notify_user, lift.
  cbn [w_ext w_db w_current_stage].
  rewrite H1. cbn [w_ext w_db w_current_stage]. rewrite H2.
  change (String.eqb "both" "both") with true.
  cbn [w_ext w_db w_current_stage]. rewrite H3.
  cbn [w_ext w_db w_current_stage]. rewrite H4.
  cbn [w_ext w_db w_current_stage]. rewrite H5.
  destruct r0 as [[[url rp] b64]|msg];
    cbn [w_ext w_db w_current_stage image_base64 video_prompt image_prompt];
    rewrite H6; reflexivity.
Qed.

(** The job driver around a body that completes. *)
Lemma process_task_ok (fuel : nat) (e : env) (sid : string)
    (audio : list Byte.byte) (fname mode : string) (w w' : world) :
  process_body fuel e sid audio fname mode
    {| w_db := w_db w; w_ext := w_ext w;
       w_current_stage := "initialization" |}
  = Some (Ok tt, w') →
  _process_task fuel e sid audio fname mode w = Some (Ok tt, w').
Proof.
  intros H. unfold _process_task, set_stage. unfold_comp.
  rewrite H. reflexivity.
Qed.

(** The job driver around a body that raises: one failed update with the
    error and the stage, and the exception goes on. *)
Lemma process_task_raise (fuel : nat) (e : env) (sid : string)
    (audio : list Byte.byte) (fname mode msg : string) (w w1 : world) :
  process_body fuel e sid audio fname mode
    {| w_db := w_db w; w_ext := w_ext w;
       w_current_stage := "initialization" |}
  = Some (Raise msg, w1) →
  _process_task fuel e sid audio fname mode w
  = Some (Raise msg,
          {| w_db :=
               update_status sid "failed"
                 (Some [("error", msg); ("stage", w_current_stage w1)])
                 (w_db w1);
             w_ext := w_ext w1;
             w_current_stage := w_current_stage w1 |}).
Proof.
  intros H. unfold _process_task, set_stage, get_stage, db_update_status.
  unfold_comp. rewrite H. reflexivity.
Qed.

(** *** What a reader of the status history sees *)

Lemma history_update_status (sid st : string) (i : option info)
    (db : database) :
  consistent db →
  get_status_updates sid (update_status sid st i db)
  = get_status_updates sid db
    ++ [{| row_session_id := sid;
           row_status := st;
           row_sequence_number :=
             Z.of_nat (length (get_status_updates sid db)) + 1;
           row_additional_info := if info_truthy i then i else None |}].
Proof.
  intros Hc.
  rewrite (consistent_history sid _ (consistent_update_status sid st i _ Hc)).
  rewrite (consistent_history sid _ Hc).
  destruct (Hc sid) as [_ Hcnt].
  cbn [update_status tbl_update_status].
  rewrite eq_session_app. f_equal.
  cbn [eq_session List.filter row_session_id].
  rewrite String.eqb_refl, Hcnt. f_equal. f_equal.
  destruct (length (eq_session sid (tbl_update_status db))); lia.
Qed.

Lemma statuses_run_writes (sid : string) (l : list (string * option info))
    (db : database) :
  consistent db →
  statuses sid (run_status_calls (writes sid l) db)
  = statuses sid db ++ l.*1.
Proof.
  intros Hc. unfold statuses.
  rewrite (consistent_history sid _ (consistent_run _ _ Hc)).
  rewrite (consistent_history sid _ Hc), run_status_rows. f_equal.
  induction l as [|[st i] l IH]; [reflexivity|].
  cbn [writes fmap list_fmap calls_of List.filter call_session_id fst].
  rewrite String.eqb_refl. cbn [fmap list_fmap call_status fst].
  f_equal. exact IH.
Qed.

Lemma latest_status_last (sid : string) (db : database) :
  latest_status sid db = last (statuses sid db).
Proof.
  unfold latest_status, statuses. symmetry. apply fmap_last.
Qed.

(** *** Every step of a job keeps the database consistent *)

Lemma kc_ret {A} (a : A) : keeps_consistent (mret a : M A).
Proof. intros w r w' H Hc. injection H as _ <-. exact Hc. Qed.

Lemma kc_raise {A} (msg : string) : keeps_consistent (raise msg : M A).
Proof. intros w r w' H Hc. injection H as _ <-. exact Hc. Qed.

Lemma kc_bind {A B} (m : M A) (f : A → M B) :
  keeps_consistent m → (∀ a, keeps_consistent (f a)) →
  keeps_consistent (m ≫= f).
Proof.
  intros Hm Hf w r w' H Hc. revert H. unfold_comp.
  destruct (m w) as [[[a|msg] w1]|] eqn:E; [| |discriminate].
  - intros H. exact (Hf a w1 r w' H (Hm _ _ _ E Hc)).
  - intros H. injection H as _ <-. exact (Hm _ _ _ E Hc).
Qed.

Lemma kc_try {A} (m : M A) (h : string → M A) :
  keeps_consistent m → (∀ msg, keeps_consistent (h msg)) →
  keeps_consistent (try_except m h).
Proof.
  intros Hm Hh w r w' H Hc. revert H. unfold_comp.
  destruct (m w) as [[[a|msg] w1]|] eqn:E; [| |discriminate].
  - intros H. injection H as _ <-. exact (Hm _ _ _ E Hc).
  - intros H. exact (Hh msg w1 r w' H (Hm _ _ _ E Hc)).
Qed.

Lemma kc_lift {A} (g : G A) : keeps_consistent (lift g).
Proof.
  intros w r w' H Hc. revert H. unfold lift.
  destruct (g (w_ext w)) as [[r1 x1]|]; [|discriminate].
  intros H. injection H as _ <-. exact Hc.
Qed.

Lemma kc_set_stage (s : string) : keeps_consistent (set_stage s).
Proof. intros w r w' H Hc. injection H as _ <-. exact Hc. Qed.

Lemma kc_get_stage : keeps_consistent get_stage.
Proof. intros w r w' H Hc. injection H as _ <-. exact Hc. Qed.

Lemma kc_update_status (sid st : string) (i : option info) :
  keeps_consistent (db_update_status sid st i).
Proof.
  intros w r w' H Hc. injection H as _ <-.
  apply consistent_update_status, Hc.
Qed.

Lemma kc_notify_user (sid : string) (r : result_data) :
  keeps_consistent (db_notify_user sid r).
Proof.
  intros w r0 w' H Hc. injection H as _ <-.
  apply consistent_notify_user, Hc.
Qed.

Ltac kc_step :=
  first
    [ apply kc_bind; [|intros]
    | apply kc_try; [|intros]
    | apply kc_lift
    | apply kc_set_stage
    | apply kc_get_stage
    | apply kc_update_status
    | apply kc_notify_user
    | apply kc_ret
    | apply kc_raise
    | match goal with
      | |- keeps_consistent (let (_, _) := ?p in _) => destruct p
      | |- keeps_consistent (match ?r with _ => _ end) => destruct r
      end ].

Lemma kc_generate_media (fuel : nat) (e : env)
    (sid mode transcript summary : string) :
  keeps_consistent (generate_media fuel e sid mode transcript summary).
Proof.
  unfold generate_media, media_both. repeat kc_step.
Qed.


End JobFacts.

Section JobClaims.
Import Runtime.
Import Processor.
Import Neon.
Import Scenarios.

Ltac unfold_comp :=
  unfold mbind, Comp_bind, bind, mret, Comp_ret, ret, raise, try_except.

(** Solve [run = Some (.., ?state)] by evaluating the run. *)
Ltac run_eq :=
  match goal with
  | |- ?lhs = ?rhs =>
      let v := eval vm_compute in lhs in
      unify rhs v; vm_compute; reflexivity
  end.

Lemma generate_video_failed (fuel : nat) (e : env)
    (summary ip transcript sid vmsg : string) (x x' : ext) :
  video_body fuel e summary ip transcript sid x = Some (Raise vmsg, x') →
  _generate_video fuel e summary ip transcript sid x
  = Some (Ok (None, None), x').
Proof.
  intros H. unfold _generate_video. unfold_comp. rewrite H. reflexivity.
Qed.

Lemma last_snoc7 {A} (l : list A) (a b c d e f g : A) :
  last (l ++ [a; b; c; d; e; f; g]) = Some g.
Proof.
  change (l ++ [a; b; c; d; e; f; g])
    with (l ++ [a; b; c; d; e; f] ++ [g]).
  rewrite app_assoc. apply last_snoc.
Qed.

Lemma last_snoc6 {A} (l : list A) (a b c d e f : A) :
  last (l ++ [a; b; c; d; e; f]) = Some f.
Proof.
  change (l ++ [a; b; c; d; e; f]) with (l ++ [a; b; c; d; e] ++ [f]).
  rewrite app_assoc. apply last_snoc.
Qed.



(** C2, as amended. In "video" mode, once the image prompt has been
    generated, an exception raised anywhere in the body of the video step
    is not fatal: the job completes, the persisted result has no media
    field, the statuses written end with 'completed' and contain no
    'failed', and the title is the answer of the text model to one request
    made of the summary and, when it is not empty, the image prompt. *)
Theorem video_mode_survives_video_failure (fuel : nat) (e : env)
    (sid : string) (audio : list Byte.byte) (fname : string) (w : world)
    (transcript summary ip title vmsg : string)
    (x1 x2 x3 x4 x5 : ext) :
  consistent (w_db w) →
  _transcribe e audio fname (w_ext w) = Some (Ok transcript, x1) →
  _summarize e transcript sid x1 = Some (Ok summary, x2) →
  _generate_image_prompt e summary sid x2 = Some (Ok ip, x3) →
  video_body fuel e summary ip transcript sid x3 = Some (Raise vmsg, x4) →
  _generate_title e None summary (VisText ip) sid x4 = Some (Ok title, x5) →
  ∃ w',
    _process_task fuel e sid audio fname "video" w = Some (Ok tt, w')
    ∧ get_session_results sid (w_db w')
      = Some {| r_transcript := transcript; r_summary := summary;
                r_title := title; r_generation_mode := "video";
                r_status := "completed";
                r_image_url := None; r_image_prompt := None;
                r_video_url := None; r_video_prompt := None |}
    ∧ statuses sid (w_db w')
      = statuses sid (w_db w)
        ++ ["transcribing"; "summarizing"; "generating_video";
            "generating_title"; "storing"; "completed"]
    ∧ latest_status sid (w_db w') = Some "completed"
    ∧ responses_create e title_instructions
        (if PyStr.truthy ip
         then "Summary: " +:+ summary +:+ PyStr.nl +:+ PyStr.nl
              +:+ "Visual concept: " +:+ ip
         else summary)
      = Ok title
    ∧ x_calls (w_ext w')
      = x_calls x4
        ++ [CallResponses title_instructions
              (if PyStr.truthy ip
               then "Summary: " +:+ summary +:+ PyStr.nl +:+ PyStr.nl
                    +:+ "Visual concept: " +:+ ip
               else summary)].
Proof.
  intros Hc H1 H2 H3 H4 H5.
  apply generate_video_failed in H4.
  eexists. split.
  { apply process_task_ok.
    exact (process_body_video fuel e sid audio fname _ _ _ _ _
             None None _ _ _ _ _ H1 H2 H3 H4 H5). }
  cbn [w_db w_ext].
  assert (Hst : ∀ res l,
            statuses sid (notify_user sid res
                            (run_status_calls (writes sid l) (w_db w)))
            = statuses sid (w_db w) ++ l.*1).
  { intros res l. exact (statuses_run_writes sid l (w_db w) Hc). }
  split; [|split; [|split]].
  - unfold get_session_results, notify_user.
    cbn [tbl_completed_results]. rewrite lookup_insert_eq. reflexivity.
  - rewrite Hst. reflexivity.
  - rewrite latest_status_last, Hst. apply last_snoc6.
  - revert H5. unfold _generate_title, request, title_input.
    cbn [PyStr.truthy_opt visual_truthy visual_str].
    intros H5. injection H5 as Ht <-. split; [exact Ht | reflexivity].
Qed.

(** A job in "video" mode with no project configured for the provider. *)
Lemma video_mode_survives_video_failure_witness :
  ∃ w',
    _process_task 10 env_no_project "session-1" image0 "clip.wav" "video"
                  initial_world
    = Some (Ok tt, w')
    ∧ get_session_results "session-1" (w_db w')
      = Some {| r_transcript := "we walked along the shore at dawn";
                r_summary := "A walk along the shore at dawn.";
                r_title := "Shoreline at Dawn";
                r_generation_mode := "video";
                r_status := "completed";
                r_image_url := None; r_image_prompt := None;
                r_video_url := None; r_video_prompt := None |}
    ∧ latest_status "session-1" (w_db w') = Some "completed".
Proof.
  edestruct (video_mode_survives_video_failure 10 env_no_project
               "session-1" image0 "clip.wav" initial_world)
    as (w' & Hrun & Hres & _ & Hlast & _);
    [ exact consistent_empty | run_eq | run_eq | run_eq | run_eq | run_eq | ].
  exists w'. auto.
Defined.

(** C2, as stated, fails on two of the failures it lists. When the
    image-prompt request raises, the job in "video" mode raises too, ends
    in 'failed' and persists no result. When every poll of the operation
    fails, the video step does not give [(None, None)]: the job completes
    with a [video_url] in its result. *)
Lemma video_mode_failures_not_all_survived :
  (outcome (_generate_image_prompt env_no_image_prompt
              "A walk along the shore at dawn." "session-1" empty_ext)
   = Some (Raise "rate limit exceeded")
   ∧ outcome (_process_task 10 env_no_image_prompt "session-1" image0
                            "clip.wav" "video" initial_world)
     = Some (Raise "rate limit exceeded")
   ∧ (λ w, latest_status "session-1" (w_db w))
       <$> final_state (_process_task 10 env_no_image_prompt "session-1"
                          image0 "clip.wav" "video" initial_world)
     = Some (Some "failed")
   ∧ (λ w, get_session_results "session-1" (w_db w))
       <$> final_state (_process_task 10 env_no_image_prompt "session-1"
                          image0 "clip.wav" "video" initial_world)
     = Some None)
  ∧ (never_done env_polls_fail "operations/42"
     ∧ outcome (_process_task 10 env_polls_fail "session-1" image0
                              "clip.wav" "video" initial_world)
       = Some (Ok tt)
     ∧ (λ w, r_video_url <$> get_session_results "session-1" (w_db w))
         <$> final_state (_process_task 10 env_polls_fail "session-1"
                            image0 "clip.wav" "video" initial_world)
       = Some (Some (Some "pending:operations/42"))).
Proof.
  split; [repeat split; vm_compute; reflexivity|].
  split; [intros k; exact I|].
  split; vm_compute; reflexivity.
Qed.



Lemma status_in_pending_not_completed (s : option string) :
  status_in s ["submitted"; "timeout"; "error"] = true →
  status_in s ["completed"] = false.
Proof.
  destruct s as [s|]; [|discriminate]. cbn [status_in existsb].
  rewrite !orb_false_r, !orb_true_iff, !String.eqb_eq.
  intros [->|[->| ->]]; reflexivity.
Qed.

(** The video step when the wait ends without a video. *)
Lemma generate_video_pending (fuel : nat) (e : env)
    (summary ip transcript sid name : string)
    (vp : VideoPromptGen.VideoPrompt) (r : video_result) (x xa xb : ext) :
  submit_video e summary ip transcript sid x = Some (Ok (vp, name), xa) →
  Veo.wait_for_video fuel e name 90 10 xa = Some (Ok r, xb) →
  status_in (vr_status r) ["submitted"; "timeout"; "error"] = true →
  _generate_video fuel e summary ip transcript sid x
  = Some (Ok (Some ("pending:" +:+ default name (vr_operation_id r)),
              Some vp),
          put_file ("generated_videos/" +:+ sid +:+ "_operation.txt")
                   (Text (default name (vr_operation_id r))) xb).
Proof.
  intros Hs Hw Hst.
  unfold _generate_video, video_body, resolve_video, write_file.
  unfold_comp. rewrite Hs, Hw, (status_in_pending_not_completed _ Hst), Hst.
  reflexivity.
Qed.

Lemma truthy_pending (s : string) : PyStr.truthy ("pending:" +:+ s) = true.
Proof. reflexivity. Qed.

(** C10. In "video" mode and in "both" mode, when the operation was
    submitted and the wait ends with status 'submitted', 'timeout' or
    'error', [video_url] is the string "pending:" followed by the
    operation id (the one in the result, else the operation name), and the
    job, once its title is generated, persists a 'completed' result with
    that [video_url] and the brief as [video_prompt]. In the persisted
    result the video keys are left out exactly when [video_url] is [None]
    or empty. *)
Theorem pending_marker_is_persisted :
  (∀ (fuel : nat) (e : env) (sid : string) (audio : list Byte.byte)
     (fname : string) (w : world) (transcript summary ip title name : string)
     (vp : VideoPromptGen.VideoPrompt) (r : video_result)
     (x1 x2 x3 xa xb x5 : ext),
     consistent (w_db w) →
     _transcribe e audio fname (w_ext w) = Some (Ok transcript, x1) →
     _summarize e transcript sid x1 = Some (Ok summary, x2) →
     _generate_image_prompt e summary sid x2 = Some (Ok ip, x3) →
     submit_video e summary ip transcript sid x3 = Some (Ok (vp, name), xa) →
     Veo.wait_for_video fuel e name 90 10 xa = Some (Ok r, xb) →
     status_in (vr_status r) ["submitted"; "timeout"; "error"] = true →
     _generate_title e None summary (VisBrief vp) sid
       (put_file ("generated_videos/" +:+ sid +:+ "_operation.txt")
                 (Text (default name (vr_operation_id r))) xb)
     = Some (Ok title, x5) →
     ∃ w',
       _process_task fuel e sid audio fname "video" w = Some (Ok tt, w')
       ∧ get_session_results sid (w_db w')
         = Some {| r_transcript := transcript; r_summary := summary;
                   r_title := title; r_generation_mode := "video";
                   r_status := "completed";
                   r_image_url := None; r_image_prompt := None;
                   r_video_url :=
                     Some ("pending:" +:+ default name (vr_operation_id r));
                   r_video_prompt := Some vp |}
       ∧ latest_status sid (w_db w') = Some "completed")
  ∧ (∀ (fuel : nat) (e : env) (sid : string) (audio : list Byte.byte)
       (fname : string) (w : world)
       (transcript summary ip title name : string)
       (r0 : result (string * string * string))
       (vp : VideoPromptGen.VideoPrompt) (r : video_result)
       (x1 x2 x3 x4 xa xb x6 : ext),
       consistent (w_db w) →
       _transcribe e audio fname (w_ext w) = Some (Ok transcript, x1) →
       _summarize e transcript sid x1 = Some (Ok summary, x2) →
       _generate_image_prompt e summary sid x2 = Some (Ok ip, x3) →
       _generate_image_from_prompt e ip summary sid x3 = Some (r0, x4) →
       submit_video e summary ip transcript sid x4
       = Some (Ok (vp, name), xa) →
       Veo.wait_for_video fuel e name 90 10 xa = Some (Ok r, xb) →
       status_in (vr_status r) ["submitted"; "timeout"; "error"] = true →
       _generate_title e
         (match r0 with Ok (_, _, b64) => Some b64 | Raise _ => None end)
         summary (VisBrief vp) sid
         (put_file ("generated_videos/" +:+ sid +:+ "_operation.txt")
                   (Text (default name (vr_operation_id r))) xb)
       = Some (Ok title, x6) →
       ∃ w' res,
         _process_task fuel e sid audio fname "both" w = Some (Ok tt, w')
         ∧ get_session_results sid (w_db w') = Some res
         ∧ r_status res = "completed"
         ∧ r_video_url res
           = Some ("pending:" +:+ default name (vr_operation_id r))
         ∧ r_video_prompt res = Some vp
         ∧ latest_status sid (w_db w') = Some "completed")
  ∧ (∀ (transcript summary title mode : string) (m : media),
       (r_video_url (make_result_data transcript summary title mode m)
        = None
        ↔ video_url m = None ∨ video_url m = Some EmptyString)
       ∧ (r_video_url (make_result_data transcript summary title mode m)
          ≠ None →
          r_video_url (make_result_data transcript summary title mode m)
          = video_url m
          ∧ r_video_prompt (make_result_data transcript summary title mode m)
            = video_prompt m)).
Proof.
  split; [|split].
  - intros fuel e sid audio fname w transcript summary ip title name vp r
      x1 x2 x3 xa xb x5 Hc H1 H2 H3 Hs Hw Hst Ht.
    pose proof (generate_video_pending fuel e _ _ _ _ _ _ _ _ _ _ Hs Hw Hst)
      as Hv.
    eexists. split.
    { apply process_task_ok.
      exact (process_body_video fuel e sid audio fname _ _ _ _ _
               _ (Some vp) _ _ _ _ _ H1 H2 H3 Hv Ht). }
    cbn [w_db]. split.
    + unfold get_session_results, notify_user.
      cbn [tbl_completed_results]. rewrite lookup_insert_eq. reflexivity.
    + rewrite latest_status_last. unfold statuses at 1.
      change (get_status_updates sid (notify_user sid ?res ?db))
        with (get_status_updates sid db).
      fold (statuses sid
              (run_status_calls
                 (writes sid [("transcribing", None); ("summarizing", None);
                              ("generating_video", None);
                              ("generating_title", None); ("storing", None);
                              ("completed", None)]) (w_db w))).
      rewrite (statuses_run_writes sid _ (w_db w) Hc). apply last_snoc6.
  - intros fuel e sid audio fname w transcript summary ip title name r0 vp r
      x1 x2 x3 x4 xa xb x6 Hc H1 H2 H3 H4 Hs Hw Hst Ht.
    pose proof (generate_video_pending fuel e _ _ _ _ _ _ _ _ _ _ Hs Hw Hst)
      as Hv.
    eexists. eexists. split.
    { apply process_task_ok.
      exact (process_body_both fuel e sid audio fname _ _ _ _ _
               r0 _ (Some vp) _ _ _ _ _ _ H1 H2 H3 H4 Hv Ht). }
    cbn [w_db]. split.
    { unfold get_session_results, notify_user.
      cbn [tbl_completed_results]. rewrite lookup_insert_eq. reflexivity. }
    split; [reflexivity|]. split; [reflexivity|]. split; [reflexivity|].
    rewrite latest_status_last.
    match goal with
    | |- last (statuses sid (notify_user sid ?res
                               (run_status_calls (writes sid ?l) ?db))) = _ =>
        change (statuses sid (notify_user sid res
                                (run_status_calls (writes sid l) db)))
          with (statuses sid (run_status_calls (writes sid l) db));
        rewrite (statuses_run_writes sid l db Hc)
    end.
    apply last_snoc7.
  - intros transcript summary title mode m.
    unfold make_result_data. cbn [r_video_url r_video_prompt].
    destruct (video_url m) as [[|c s]|]; cbn [PyStr.truthy_opt PyStr.truthy];
      split; try (split; intros H); try reflexivity; try congruence;
      auto; try (destruct H as [H|H]; congruence).
Qed.

(** A "video" job whose polls all fail: the wait times out. *)
Lemma pending_marker_is_persisted_witness :
  ∃ w',
    _process_task 10 env_polls_fail "session-1" image0 "clip.wav" "video"
                  initial_world
    = Some (Ok tt, w')
    ∧ get_session_results "session-1" (w_db w')
      = Some {| r_transcript := "we walked along the shore at dawn";
                r_summary := "A walk along the shore at dawn.";
                r_title := "Shoreline at Dawn";
                r_generation_mode := "video";
                r_status := "completed";
                r_image_url := None; r_image_prompt := None;
                r_video_url := Some "pending:operations/42";
                r_video_prompt := Some brief0 |}
    ∧ latest_status "session-1" (w_db w') = Some "completed".
Proof.
  eapply (proj1 pending_marker_is_persisted 10%nat env_polls_fail "session-1"
            image0 "clip.wav" initial_world _ _ _ _ "operations/42" brief0
            (Veo.timeout_result "operations/42"));
    [ exact consistent_empty | run_eq | run_eq | run_eq | run_eq | run_eq
    | reflexivity | run_eq ].
Defined.

End JobClaims.

(* ===================================================================== *)
(** ** More on the polling wait *)
(* ===================================================================== *)

Section VeoMore.
Import Runtime.
Import Veo.
Import Scenarios.

Ltac unfold_comp :=
  unfold mbind, Comp_bind, bind, mret, Comp_ret, ret, raise, try_except.

(** The state after one poll. *)
Lemma poll_once_total (e : env) (op : string) (x : ext) :
  ∃ o,
    poll_once e op x
    = Some (Ok o,
            {| x_files := x_files x;
               x_calls := x_calls x ++ [CallVeoStatus op];
               x_clock := x_clock x
                          + Z.of_nat (poll_latency
                                        (veo_get_operation_status e op
                                                                  (x_polls x)));
               x_polls := S (x_polls x);
               x_video_prompt_generator := x_video_prompt_generator x;
               x_veo_client := x_veo_client x |}).
Proof.
  unfold poll_once, get_operation_status. unfold_comp.
  destruct (poll_outcome (veo_get_operation_status e op (x_polls x)))
    as [status|msg]; [|eexists; reflexivity].
  unfold check_status.
  destruct (done status); [|eexists; reflexivity].
  destruct (error status); [eexists; reflexivity|].
  destruct (videos (default empty_response (response status)))
    as [|v vs]; [eexists; reflexivity|].
  destruct (gcsUri v), (bytesBase64Encoded v); eexists; reflexivity.
Qed.

Lemma wait_loop_terminates (e : env) (op : string) (start T p : Z) :
  0 < p →
  ∀ (fuel : nat) (x : ext),
    T - (x_clock x - start) ≤ Z.of_nat fuel * p →
    ∃ (v : video_result) (x' : ext),
      wait_loop (S fuel) e op start T p x = Some (Ok v, x')
      ∧ (x_polls x ≤ x_polls x' ≤ x_polls x + fuel)%nat.
Proof.
  intros Hp fuel. induction fuel as [|fuel IH]; intros x Hrem.
  - exists (timeout_result op), x. cbn [wait_loop]. unfold loop_time.
    unfold_comp.
    destruct (Z.ltb_spec (x_clock x - start) T) as [Hlt|Hge]; [lia|].
    split; [reflexivity | lia].
  - remember (S fuel) as fuel1 eqn:Hf1.
    cbn [wait_loop]. unfold loop_time. unfold_comp.
    destruct (Z.ltb_spec (x_clock x - start) T) as [Hlt|Hge].
    + destruct (poll_once_total e op x) as [o Ho]. rewrite Ho.
      destruct o as [v|].
      * eexists. eexists. split; [reflexivity|]. cbn [x_polls]. lia.
      * unfold sleep. subst fuel1.
        match goal with
        | |- context [wait_loop (S fuel) e op start T p ?x1] =>
            destruct (IH x1) as (v & x' & Hrun & Hpolls)
        end.
        { cbn [x_clock]. lia. }
        exists v, x'. split; [exact Hrun|]. cbn [x_polls] in Hpolls. lia.
    + exists (timeout_result op), x. split; [reflexivity | lia].
Qed.

(** X1. Whatever the interval, the timeout and the provider's replies, a
    wait that returns gives a result dict: it never raises. *)
Theorem wait_for_video_never_raises (fuel : nat) (e : env) (op : string)
    (T p : Z) (x x' : ext) (r : result video_result) :
  wait_for_video fuel e op T p x = Some (r, x') →
  ∃ v, r = Ok v.
Proof.
  unfold wait_for_video, loop_time. unfold_comp.
  destruct (wait_loop fuel e op (x_clock x) T p x) as [[[v|msg] x1]|];
    intros H; [| |discriminate]; injection H as <- _; eexists; reflexivity.
Qed.

Lemma wait_for_video_never_raises_witness :
  ∃ v, Ok (timeout_result "operations/42") = Ok v.
Proof.
  apply (wait_for_video_never_raises 10 env_polls_fail "operations/42" 90 10
           empty_ext
           {| x_files := ∅;
              x_calls := replicate 9 (CallVeoStatus "operations/42");
              x_clock := 90; x_polls := 9;
              x_video_prompt_generator := false; x_veo_client := false |}).
  vm_compute. reflexivity.
Defined.

(** X2. For a positive poll interval and whatever the provider replies
    (errors included), the wait returns a result once the fuel exceeds
    [timeout / interval + 1], and it has then issued at most
    [timeout / interval + 1] polls. *)
Theorem wait_for_video_terminates (e : env) (op : string) (T p : Z)
    (x : ext) (fuel : nat) :
  0 < p →
  0 ≤ T →
  (Z.to_nat (T / p) + 2 ≤ fuel)%nat →
  ∃ (v : video_result) (x' : ext),
    wait_for_video fuel e op T p x = Some (Ok v, x')
    ∧ (x_polls x ≤ x_polls x' ≤ x_polls x + Z.to_nat (T / p) + 1)%nat.
Proof.
  intros Hp HT Hfuel.
  assert (Hdiv : 0 ≤ T / p) by (apply Z.div_pos; lia).
  pose proof (Z.mul_succ_div_gt T p Hp) as Hgt.
  destruct (wait_loop_terminates e op (x_clock x) T p Hp
              (Z.to_nat (T / p) + 1) x)
    as (v & x' & Hrun & Hpolls).
  { rewrite Nat2Z.inj_add, Z2Nat.id by lia. lia. }
  exists v, x'. split; [|lia].
  apply (wait_for_video_fuel_mono e op T p (S (Z.to_nat (T / p) + 1)));
    [lia|].
  unfold wait_for_video, loop_time. unfold_comp. rewrite Hrun. reflexivity.
Qed.

Lemma wait_for_video_terminates_witness :
  ∃ (v : video_result) (x' : ext),
    wait_for_video 11 env_done_with_error "operations/42" 90 10 empty_ext
    = Some (Ok v, x')
    ∧ (x_polls empty_ext ≤ x_polls x'
       ≤ x_polls empty_ext + Z.to_nat (90 / 10) + 1)%nat.
Proof.
  apply wait_for_video_terminates; [lia | lia | vm_compute; lia].
Defined.

(** X3. With a timeout that is zero or negative the wait does not poll at
    all: it returns the timeout result at once and leaves the state as it
    was, even if the operation is already done. *)
Theorem wait_for_video_no_time (fuel : nat) (e : env) (op : string)
    (T p : Z) (x : ext) :
  T ≤ 0 →
  wait_for_video (S fuel) e op T p x = Some (Ok (timeout_result op), x).
Proof.
  intros HT. unfold wait_for_video. cbn [wait_loop]. unfold loop_time.
  unfold_comp.
  destruct (Z.ltb_spec (x_clock x - x_clock x) T) as [Hlt|Hge]; [lia|].
  reflexivity.
Qed.

Lemma wait_for_video_no_time_witness :
  wait_for_video 1 env_done_with_error "operations/42" 0 10 empty_ext
  = Some (Ok (timeout_result "operations/42"), empty_ext).
Proof. apply wait_for_video_no_time. lia. Defined.

(** X4. When the first poll inside the timeout reports the operation done
    without error and with videos, the wait returns after that single poll
    with the first video only. A storage URI is preferred: if the first
    video has a [gcsUri], the result carries it as [videoUri] and no
    [videoBase64], whether or not inline bytes are present too. *)
Theorem wait_for_video_prefers_uri (fuel : nat) (e : env) (op uri : string)
    (T p : Z) (x : ext) (status : operation_status) (rd : response_data)
    (first_video : video_entry) (others : list video_entry) :
  0 < T →
  poll_outcome (veo_get_operation_status e op (x_polls x)) = Ok status →
  done status = true →
  error status = None →
  response status = Some rd →
  videos rd = first_video :: others →
  gcsUri first_video = Some uri →
  outcome (wait_for_video (S fuel) e op T p x)
  = Some (Ok {| vr_status := Some "completed";
                vr_operation_id := None;
                vr_message := None;
                vr_videoUri := Some uri;
                vr_videoBase64 := None;
                vr_mimeType :=
                  Some (default "video/mp4" (mimeType first_video)) |})
  ∧ x_polls <$> final_state (wait_for_video (S fuel) e op T p x)
    = Some (S (x_polls x)).
Proof.
  intros HT Hs Hd He Hr Hv Hu.
  unfold wait_for_video. cbn [wait_loop].
  unfold loop_time, poll_once, get_operation_status, check_status.
  unfold_comp.
  destruct (Z.ltb_spec (x_clock x - x_clock x) T) as [Hlt|Hge]; [|lia].
  rewrite Hs, Hd, He, Hr. cbn [from_option id]. rewrite Hv, Hu.
  split; reflexivity.
Qed.

Lemma wait_for_video_prefers_uri_witness :
  outcome (wait_for_video 1 env_video_ready "operations/42" 90 10 empty_ext)
  = Some (Ok {| vr_status := Some "completed";
                vr_operation_id := None;
                vr_message := None;
                vr_videoUri :=
                  Some "gs://pixeltalk/videos/session-1/sample_0.mp4";
                vr_videoBase64 := None;
                vr_mimeType := Some "video/mp4" |})
  ∧ x_polls <$> final_state (wait_for_video 1 env_video_ready
                                            "operations/42" 90 10 empty_ext)
    = Some 1%nat.
Proof.
  exact (wait_for_video_prefers_uri 0 env_video_ready "operations/42"
           _ 90 10 empty_ext _ _
           {| gcsUri := Some "gs://pixeltalk/videos/session-1/sample_0.mp4";
              bytesBase64Encoded := Some "AAAAIGZ0eXA=";
              mimeType := None |} _
           ltac:(lia) eq_refl eq_refl eq_refl eq_refl eq_refl eq_refl).
Defined.

(** X5. When the first poll inside the timeout reports the operation done
    without error and without any video, the wait returns after that single
    poll what the provider put under [response] (the empty dict when the
    key is missing): there is no 'completed' status in it unless the
    provider wrote one. *)
Theorem wait_for_video_done_without_video (fuel : nat) (e : env)
    (op : string) (T p : Z) (x : ext) (status : operation_status) :
  0 < T →
  poll_outcome (veo_get_operation_status e op (x_polls x)) = Ok status →
  done status = true →
  error status = None →
  videos (default empty_response (response status)) = [] →
  outcome (wait_for_video (S fuel) e op T p x)
  = Some (Ok (rd_other (default empty_response (response status))))
  ∧ x_polls <$> final_state (wait_for_video (S fuel) e op T p x)
    = Some (S (x_polls x)).
Proof.
  intros HT Hs Hd He Hv.
  unfold wait_for_video. cbn [wait_loop].
  unfold loop_time, poll_once, get_operation_status, check_status.
  unfold_comp.
  destruct (Z.ltb_spec (x_clock x - x_clock x) T) as [Hlt|Hge]; [|lia].
  rewrite Hs, Hd, He, Hv. split; reflexivity.
Qed.

Lemma wait_for_video_done_without_video_witness :
  outcome (wait_for_video 1 env_done_without_video "operations/42" 90 10
                          empty_ext)
  = Some (Ok empty_video_result)
  ∧ x_polls <$> final_state (wait_for_video 1 env_done_without_video
                                            "operations/42" 90 10 empty_ext)
    = Some 1%nat.
Proof.
  exact (wait_for_video_done_without_video 0 env_done_without_video
           "operations/42" 90 10 empty_ext
           {| done := true; error := None; response := None |}
           ltac:(lia) eq_refl eq_refl eq_refl eq_refl).
Defined.

Lemma wait_loop_recovers (e : env) (op uri : string) (start T p : Z)
    (first_video : video_entry) :
  0 < p →
  ∀ (n fuel : nat) (x : ext),
    0 ≤ x_clock x - start →
    x_clock x - start + Z.of_nat n * p < T →
    (∀ k, (k < n)%nat →
       poll_latency (veo_get_operation_status e op (x_polls x + k)) = 0%nat
       ∧ match poll_outcome (veo_get_operation_status e op (x_polls x + k))
         with
         | Ok status => done status = false
         | Raise _ => True
         end) →
    (∃ status rd others,
       poll_outcome (veo_get_operation_status e op (x_polls x + n))
       = Ok status
       ∧ done status = true ∧ error status = None
       ∧ response status = Some rd
       ∧ videos rd = first_video :: others
       ∧ gcsUri first_video = Some uri) →
    ∃ x',
      wait_loop (S (n + fuel)) e op start T p x
      = Some (Ok {| vr_status := Some "completed";
                    vr_operation_id := None;
                    vr_message := None;
                    vr_videoUri := Some uri;
                    vr_videoBase64 := None;
                    vr_mimeType :=
                      Some (default "video/mp4" (mimeType first_video)) |},
              x')
      ∧ x_polls x' = S (x_polls x + n).
Proof.
  intros Hp n. induction n as [|n IH]; intros fuel x H0 Hlt Hbefore Hlast.
  - destruct Hlast as (status & rd & others & Hs & Hd & He & Hr & Hv & Hu).
    rewrite Nat.add_0_r in Hs.
    cbn [Nat.add wait_loop].
    unfold loop_time, poll_once, get_operation_status, check_status.
    unfold_comp.
    destruct (Z.ltb_spec (x_clock x - start) T) as [Hl|Hg]; [|lia].
    rewrite Hs, Hd, He, Hr. cbn [from_option id]. rewrite Hv, Hu.
    eexists. split; [reflexivity|]. cbn [x_polls]. lia.
  - change (S (S n + fuel)) with (S (S (n + fuel))).
    remember (S (n + fuel)) as fuel1 eqn:Hf1.
    cbn [wait_loop]. unfold loop_time. unfold_comp.
    destruct (Z.ltb_spec (x_clock x - start) T) as [Hl|Hg]; [|lia].
    destruct (Hbefore 0%nat ltac:(lia)) as [Hlat Hcont].
    rewrite Nat.add_0_r in Hlat, Hcont.
    rewrite (poll_once_continue e op x Hcont), Hlat.
    unfold sleep. subst fuel1.
    match goal with
    | |- context [wait_loop (S (n + fuel)) e op start T p ?x1] =>
        destruct (IH fuel x1) as (x' & Hrun & Hpolls)
    end.
    + cbn [x_clock]. lia.
    + cbn [x_clock]. lia.
    + intros k Hk. cbn [x_polls].
      replace (S (x_polls x) + k)%nat with (x_polls x + S k)%nat by lia.
      apply Hbefore. lia.
    + cbn [x_polls].
      replace (S (x_polls x) + n)%nat with (x_polls x + S n)%nat by lia.
      exact Hlast.
    + exists x'. split; [exact Hrun|]. cbn [x_polls] in Hpolls. lia.
Qed.

(** X6. Failed polls are not fatal. If the first [n] polls answer at once
    but fail or find the operation still running, and the next poll finds
    it done with a video in storage while [n] intervals have not used up
    the timeout, the wait returns the completed result for that video after
    [n + 1] polls. *)
Theorem wait_for_video_recovers (e : env) (op uri : string) (T p : Z)
    (n fuel : nat) (x : ext) (status : operation_status)
    (rd : response_data) (first_video : video_entry)
    (others : list video_entry) :
  0 < p →
  Z.of_nat n * p < T →
  (∀ k, (k < n)%nat →
     poll_latency (veo_get_operation_status e op (x_polls x + k)) = 0%nat
     ∧ match poll_outcome (veo_get_operation_status e op (x_polls x + k))
       with
       | Ok status => done status = false
       | Raise _ => True
       end) →
  poll_outcome (veo_get_operation_status e op (x_polls x + n)) = Ok status →
  done status = true →
  error status = None →
  response status = Some rd →
  videos rd = first_video :: others →
  gcsUri first_video = Some uri →
  outcome (wait_for_video (S (n + fuel)) e op T p x)
  = Some (Ok {| vr_status := Some "completed";
                vr_operation_id := None;
                vr_message := None;
                vr_videoUri := Some uri;
                vr_videoBase64 := None;
                vr_mimeType :=
                  Some (default "video/mp4" (mimeType first_video)) |})
  ∧ x_polls <$> final_state (wait_for_video (S (n + fuel)) e op T p x)
    = Some (S (x_polls x + n)).
Proof.
  intros Hp HT Hbefore Hs Hd He Hr Hv Hu.
  destruct (wait_loop_recovers e op uri (x_clock x) T p first_video Hp
              n fuel x)
    as (x' & Hrun & Hpolls); [lia | lia | exact Hbefore | eauto 10 |].
  unfold wait_for_video, loop_time. unfold_comp. rewrite Hrun.
  cbn. rewrite Hpolls. split; reflexivity.
Qed.

Lemma wait_for_video_recovers_witness :
  outcome (wait_for_video 3 env_flaky_polls "operations/42" 90 10 empty_ext)
  = Some (Ok {| vr_status := Some "completed";
                vr_operation_id := None;
                vr_message := None;
                vr_videoUri :=
                  Some "gs://pixeltalk/videos/session-1/sample_0.mp4";
                vr_videoBase64 := None;
                vr_mimeType := Some "video/mp4" |})
  ∧ x_polls <$> final_state (wait_for_video 3 env_flaky_polls
                                            "operations/42" 90 10 empty_ext)
    = Some 3%nat.
Proof.
  refine (wait_for_video_recovers env_flaky_polls "operations/42" _ 90 10
            2 0 empty_ext _ _
            {| gcsUri := Some "gs://pixeltalk/videos/session-1/sample_0.mp4";
               bytesBase64Encoded := Some "AAAAIGZ0eXA=";
               mimeType := None |} _
            ltac:(lia) ltac:(lia) _ eq_refl eq_refl eq_refl eq_refl eq_refl
            eq_refl).
  intros [|[|k]] Hk; [split; [reflexivity|exact I] ..| lia].
Defined.

End VeoMore.

(* ===================================================================== *)
(** ** More on the tables and on the status endpoint *)
(* ===================================================================== *)

Section NeonMore.
Import Neon.
Import Main.


(** X8. A status write concerns its own session only: the history of any
    other session, and every stored result, read the same before and
    after; and storing a result changes no history. *)
Theorem update_status_isolated (db : database) (sid sid' st : string)
    (i : option info) (r : result_data) :
  (sid' ≠ sid →
   get_status_updates sid' (update_status sid st i db)
   = get_status_updates sid' db)
  ∧ get_session_results sid' (update_status sid st i db)
    = get_session_results sid' db
  ∧ get_status_updates sid' (notify_user sid r db)
    = get_status_updates sid' db.
Proof.
  split; [|split; reflexivity].
  intros Hne. unfold get_status_updates.
  cbn [update_status tbl_update_status].
  rewrite eq_session_app. cbn [eq_session List.filter row_session_id].
  assert (String.eqb sid sid' = false) as ->
    by (apply String.eqb_neq; congruence).
  rewrite app_nil_r. reflexivity.
Qed.

(** X9. On a consistent database, a status write adds exactly one row at
    the end of the history of its session, numbered one more than the
    number of rows the session had; the row keeps the info dict only when
    it is not empty, and its status is the one the endpoint reads as the
    latest. *)
Theorem update_status_appends (db : database) (sid st : string)
    (i : option info) :
  consistent db →
  get_status_updates sid (update_status sid st i db)
  = get_status_updates sid db
    ++ [{| row_session_id := sid;
           row_status := st;
           row_sequence_number :=
             Z.of_nat (length (get_status_updates sid db)) + 1;
           row_additional_info :=
             match i with
             | Some (_ :: _) => i
             | _ => None
             end |}]
  ∧ latest_status sid (update_status sid st i db) = Some st.
Proof.
  intros Hc.
  pose proof (history_update_status sid st i db Hc) as H.
  assert (Hi : (if info_truthy i then i else None)
               = match i with Some (_ :: _) => i | _ => None end).
  { destruct i as [[|]|]; reflexivity. }
  rewrite Hi in H. split; [exact H|].
  unfold latest_status. rewrite H, last_snoc. reflexivity.
Qed.

Lemma update_status_appends_witness :
  get_status_updates "session-1"
    (update_status "session-1" "summarizing" (Some [])
       (update_status "session-1" "transcribing" None empty_database))
  = [{| row_session_id := "session-1"; row_status := "transcribing";
        row_sequence_number := 1; row_additional_info := None |};
     {| row_session_id := "session-1"; row_status := "summarizing";
        row_sequence_number := 2; row_additional_info := None |}].
Proof.
  destruct (update_status_appends
              (update_status "session-1" "transcribing" None empty_database)
              "session-1" "summarizing" (Some []))
    as [H _].
  - apply consistent_update_status, consistent_empty.
  - rewrite H. vm_compute. reflexivity.
Defined.



End NeonMore.

(* ===================================================================== *)
(** ** More on the job driver: termination, terminal status, isolation *)
(* ===================================================================== *)

Section JobMore.
Import Runtime.
Import Processor.
Import Neon.
Import Main.
Import Scenarios.

Ltac unfold_comp :=
  unfold mbind, Comp_bind, bind, mret, Comp_ret, ret, raise, try_except.

Ltac run_eq :=
  match goal with
  | |- ?lhs = ?rhs =>
      let v := eval vm_compute in lhs in
      unify rhs v; vm_compute; reflexivity
  end.

(** *** Every step returns, given fuel for the wait *)



















(** *** What a completed body has written *)

Lemma bind_ok_inv {S A B} (m : Comp S A) (f : A → Comp S B) (s s' : S)
    (b : B) :
  (m ≫= f) s = Some (Ok b, s') →
  ∃ a s1, m s = Some (Ok a, s1) ∧ f a s1 = Some (Ok b, s').
Proof.
  unfold_comp. destruct (m s) as [[[a|msg] s1]|]; intros H;
    [eauto | discriminate | discriminate].
Qed.

Lemma process_body_ok_inv (fuel : nat) (e : env) (sid : string)
    (audio : list Byte.byte) (fname mode : string) (w w' : world) :
  process_body fuel e sid audio fname mode w = Some (Ok tt, w') →
  ∃ transcript summary title m w2 w3 db,
    generate_media fuel e sid mode transcript summary w2 = Some (Ok m, w3)
    ∧ w_db w'
      = update_status sid "completed" None
          (notify_user sid
             (make_result_data transcript summary title mode m) db).
Proof.
  intros H. unfold process_body in H.
  repeat match type of H with
         | (_ ≫= _) _ = Some (Ok _, _) =>
             apply bind_ok_inv in H;
             let a := fresh "a" in
             let s := fresh "s" in
             let Hm := fresh "Hm" in
             destruct H as (a & s & Hm & H)
         end.
  exists a1, a4, a9.
  match goal with
  | Hg : generate_media _ _ _ _ _ _ ?w2 = Some (Ok ?m, ?w3) |- _ =>
      exists m, w2, w3
  end.
  unfold db_update_status in H. injection H as <-.
  match goal with
  | Hn : db_notify_user _ _ _ = Some (Ok _, _) |- _ =>
      unfold db_notify_user in Hn; injection Hn as _ <-
  end.
  eexists. split; [eassumption|]. reflexivity.
Qed.

End JobMore.

Section Respects.
Import Runtime.
Import Processor.
Import Neon.

Variable R : database → database → Prop.
Variable sid : string.
Hypothesis R_refl : ∀ db, R db db.
Hypothesis R_trans : ∀ a b c, R a b → R b c → R a c.
Hypothesis R_update : ∀ st i db, R db (update_status sid st i db).
Hypothesis R_notify : ∀ res db, R db (notify_user sid res db).

Ltac unfold_comp :=
  unfold mbind, Comp_bind, bind, mret, Comp_ret, ret, raise, try_except.

Lemma rs_ret {A} (a : A) : respects R (mret a : M A).
Proof. intros w r w' H. injection H as _ <-. apply R_refl. Qed.

Lemma rs_raise {A} (msg : string) : respects R (raise msg : M A).
Proof. intros w r w' H. injection H as _ <-. apply R_refl. Qed.

Lemma rs_bind {A B} (m : M A) (f : A → M B) :
  respects R m → (∀ a, respects R (f a)) → respects R (m ≫= f).
Proof.
  intros Hm Hf w r w' H. revert H. unfold_comp.
  destruct (m w) as [[[a|msg] w1]|] eqn:E; [| |discriminate].
  - intros H. exact (R_trans _ _ _ (Hm _ _ _ E) (Hf a w1 r w' H)).
  - intros H. injection H as _ <-. exact (Hm _ _ _ E).
Qed.

Lemma rs_try {A} (m : M A) (h : string → M A) :
  respects R m → (∀ msg, respects R (h msg)) → respects R (try_except m h).
Proof.
  intros Hm Hh w r w' H. revert H. unfold_comp.
  destruct (m w) as [[[a|msg] w1]|] eqn:E; [| |discriminate].
  - intros H. injection H as _ <-. exact (Hm _ _ _ E).
  - intros H. exact (R_trans _ _ _ (Hm _ _ _ E) (Hh msg w1 r w' H)).
Qed.

Lemma rs_lift {A} (g : G A) : respects R (lift g).
Proof.
  intros w r w' H. revert H. unfold lift.
  destruct (g (w_ext w)) as [[r1 x1]|]; [|discriminate].
  intros H. injection H as _ <-. apply R_refl.
Qed.

Lemma rs_set_stage (s : string) : respects R (set_stage s).
Proof. intros w r w' H. injection H as _ <-. apply R_refl. Qed.

Lemma rs_get_stage : respects R get_stage.
Proof. intros w r w' H. injection H as _ <-. apply R_refl. Qed.

Lemma rs_update_status (st : string) (i : option info) :
  respects R (db_update_status sid st i).
Proof. intros w r w' H. injection H as _ <-. apply R_update. Qed.

Lemma rs_notify_user (res : result_data) :
  respects R (db_notify_user sid res).
Proof. intros w r w' H. injection H as _ <-. apply R_notify. Qed.

Ltac rs_step :=
  first
    [ apply rs_bind; [|intros]
    | apply rs_try; [|intros]
    | apply rs_lift
    | apply rs_set_stage
    | apply rs_get_stage
    | apply rs_update_status
    | apply rs_notify_user
    | apply rs_ret
    | apply rs_raise
    | match goal with
      | |- respects R (let (_, _) := ?p in _) => destruct p
      | |- respects R (match ?r with _ => _ end) => destruct r
      end ].

Lemma rs_generate_media (fuel : nat) (e : env)
    (mode transcript summary : string) :
  respects R (generate_media fuel e sid mode transcript summary).
Proof.
  unfold generate_media, media_both. repeat rs_step.
Qed.

Lemma rs_process_task (fuel : nat) (e : env) (audio : list Byte.byte)
    (fname mode : string) :
  respects R (_process_task fuel e sid audio fname mode).
Proof.
  unfold _process_task, process_body, generate_media, media_both.
  repeat rs_step.
Qed.

Lemma rs_worker_iteration (fuel : nat) (e : env) (t : task) :
  t_session_id t = sid →
  respects R (worker_iteration fuel e t).
Proof.
  intros Ht. unfold worker_iteration. rewrite Ht.
  apply rs_try; [apply rs_process_task|]. intros msg.
  apply rs_update_status.
Qed.

End Respects.

Section JobEnd.
Import Runtime.
Import Processor.
Import Neon.
Import Main.
Import Scenarios.

Ltac unfold_comp :=
  unfold mbind, Comp_bind, bind, mret, Comp_ret, ret, raise, try_except.

Ltac run_eq :=
  match goal with
  | |- ?lhs = ?rhs =>
      let v := eval vm_compute in lhs in
      unify rhs v; vm_compute; reflexivity
  end.

(** The last row of a history after a write, from the consistency of the
    database reached. *)
Lemma history_last_written (sid st : string) (i : option info)
    (db : database) :
  consistent (update_status sid st i db) →
  ∃ n,
    last (get_status_updates sid (update_status sid st i db))
    = Some {| row_session_id := sid; row_status := st;
              row_sequence_number := n;
              row_additional_info := if info_truthy i then i else None |}.
Proof.
  intros Hc. rewrite (consistent_history sid _ Hc).
  cbn [update_status tbl_update_status]. rewrite eq_session_app.
  cbn [eq_session List.filter row_session_id]. rewrite String.eqb_refl.
  eexists. apply last_snoc.
Qed.


Lemma get_status_after_failed (sid msg : string)
    (rest : list (string * string)) (db : database) :
  consistent (update_status sid "failed" (Some (("error", msg) :: rest)) db) →
  get_status sid (update_status sid "failed"
                                (Some (("error", msg) :: rest)) db)
  = Response {| resp_session_id := sid; resp_status := "failed";
                resp_stage := None; resp_result := None;
                resp_error := Some msg |}.
Proof.
  intros Hc. unfold get_status.
  destruct (history_last_written sid "failed" _ db Hc) as [n ->].
  reflexivity.
Qed.




Lemma same_elsewhere_refl (sid : string) (db : database) :
  same_elsewhere sid db db.
Proof. intros other _. split; reflexivity. Qed.

Lemma same_elsewhere_trans (sid : string) (a b c : database) :
  same_elsewhere sid a b → same_elsewhere sid b c → same_elsewhere sid a c.
Proof.
  intros Hab Hbc other Hne.
  destruct (Hab other Hne) as [H1 H2], (Hbc other Hne) as [H3 H4].
  split; congruence.
Qed.

Lemma same_elsewhere_update (sid st : string) (i : option info)
    (db : database) :
  same_elsewhere sid db (update_status sid st i db).
Proof.
  intros other Hne. split; [|reflexivity].
  unfold get_status_updates. cbn [update_status tbl_update_status].
  rewrite eq_session_app. cbn [eq_session List.filter row_session_id].
  assert (String.eqb sid other = false) as ->
    by (apply String.eqb_neq; congruence).
  rewrite app_nil_r. reflexivity.
Qed.

Lemma same_elsewhere_notify (sid : string) (res : result_data)
    (db : database) :
  same_elsewhere sid db (notify_user sid res db).
Proof.
  intros other Hne. split; [reflexivity|].
  unfold get_session_results, notify_user. cbn [tbl_completed_results].
  apply lookup_insert_ne. congruence.
Qed.

Lemma worker_iteration_elsewhere (fuel : nat) (e : env) (t : task) :
  respects (same_elsewhere (t_session_id t)) (worker_iteration fuel e t).
Proof.
  apply (rs_worker_iteration (same_elsewhere (t_session_id t))
           (t_session_id t));
    auto using same_elsewhere_refl, same_elsewhere_update,
               same_elsewhere_notify.
  apply same_elsewhere_trans.
Qed.

(** X12. A job reads and writes the rows of its own session only: after an
    iteration of the worker, whatever its outcome, the status history and
    the stored result of every other session are what they were, and so
    is the answer of the status endpoint for them. *)
Theorem job_leaves_other_sessions (fuel : nat) (e : env) (t : task)
    (w w' : world) (r : result unit) (other : string) :
  worker_iteration fuel e t w = Some (r, w') →
  other ≠ t_session_id t →
  get_status_updates other (w_db w') = get_status_updates other (w_db w)
  ∧ get_session_results other (w_db w') = get_session_results other (w_db w)
  ∧ get_status other (w_db w') = get_status other (w_db w).
Proof.
  intros Hrun Hne.
  destruct (worker_iteration_elsewhere fuel e t w r w' Hrun other Hne)
    as [Hh Hr].
  split; [exact Hh|]. split; [exact Hr|].
  unfold get_status. rewrite Hh, Hr. reflexivity.
Qed.

Lemma job_leaves_other_sessions_witness :
  (get_status "session-2"
   <$> (w_db <$> final_state
          (worker_iteration 10 env_no_project
             {| t_session_id := "session-1"; t_audio_content := image0;
                t_filename := "clip.wav"; t_generation_mode := "both" |}
             initial_world)))
  = Some (HTTPException 404 "Session not found").
Proof.
  destruct (worker_iteration 10 env_no_project
              {| t_session_id := "session-1"; t_audio_content := image0;
                 t_filename := "clip.wav"; t_generation_mode := "both" |}
              initial_world) as [[r w']|] eqn:E.
  - destruct (job_leaves_other_sessions _ _ _ _ _ _ "session-2" E)
      as (_ & _ & H); [discriminate|].
    cbn. rewrite H. reflexivity.
  - exfalso. vm_compute in E. discriminate E.
Defined.




End JobEnd.

(* ===================================================================== *)
(** ** More on the stages: which failures end a job *)
(* ===================================================================== *)

Section StageFailures.
Import Runtime.
Import Processor.
Import Neon.
Import Main.
Import Scenarios.

Ltac unfold_comp :=
  unfold mbind, Comp_bind, bind, mret, Comp_ret, ret, raise, try_except.

Ltac run_eq :=
  match goal with
  | |- ?lhs = ?rhs =>
      let v := eval vm_compute in lhs in
      unify rhs v; vm_compute; reflexivity
  end.

Lemma last_snoc4 {A} (l : list A) (a b c d : A) :
  last (l ++ [a; b; c; d]) = Some d.
Proof.
  change (l ++ [a; b; c; d]) with (l ++ [a; b; c] ++ [d]).
  rewrite app_assoc. apply last_snoc.
Qed.

Lemma last_snoc2 {A} (l : list A) (a b : A) : last (l ++ [a; b]) = Some b.
Proof.
  change (l ++ [a; b]) with (l ++ [a] ++ [b]).
  rewrite app_assoc. apply last_snoc.
Qed.



(** X15. In "image" mode a failure of the image generation is fatal, unlike
    a failure of the video generation in "video" mode: the driver raises,
    nothing is stored for the session, and the statuses written are
    transcribing, summarizing, generating_image and 'failed', the latter
    with the error and the stage "media_generation". *)
Theorem image_mode_failure_is_fatal (fuel : nat) (e : env) (sid : string)
    (audio : list Byte.byte) (fname : string) (w : world)
    (transcript summary msg : string) (x1 x2 x3 : ext) :
  consistent (w_db w) →
  _transcribe e audio fname (w_ext w) = Some (Ok transcript, x1) →
  _summarize e transcript sid x1 = Some (Ok summary, x2) →
  _generate_image e summary sid x2 = Some (Raise msg, x3) →
  ∃ w',
    _process_task fuel e sid audio fname "image" w = Some (Raise msg, w')
    ∧ get_session_results sid (w_db w') = get_session_results sid (w_db w)
    ∧ statuses sid (w_db w')
      = statuses sid (w_db w)
        ++ ["transcribing"; "summarizing"; "generating_image"; "failed"]
    ∧ get_status sid (w_db w')
      = Response {| resp_session_id := sid; resp_status := "failed";
                    resp_stage := None; resp_result := None;
                    resp_error := Some msg |}
    ∧ row_additional_info <$> last (get_status_updates sid (w_db w'))
      = Some (Some [("error", msg); ("stage", "media_generation")]).
Proof.
  intros Hc H1 H2 H3.
  assert (Hbody :
    process_body fuel e sid audio fname "image"
      {| w_db := w_db w; w_ext := w_ext w;
         w_current_stage := "initialization" |}
    = Some (Raise msg,
            {| w_db :=
                 run_status_calls
                   (writes sid [("transcribing", None);
                                ("summarizing", None);
                                ("generating_image", None)])
                   (w_db w);
               w_ext := x3;
               w_current_stage := "media_generation" |})).
  { unfold process_body, generate_media. unfold_comp.
    unfold set_stage, db_update_status, lift.
    cbn [w_ext w_db w_current_stage].
    rewrite H1. cbn [w_ext w_db w_current_stage]. rewrite H2.
    change (String.eqb "image" "both") with false.
    change (mode_in "image" ["image"; "both"]) with true.
    cbn [w_ext w_db w_current_stage]. rewrite H3. reflexivity. }
  eexists. split; [exact (process_task_raise _ _ _ _ _ _ _ _ _ Hbody)|].
  cbn [w_db w_ext w_current_stage].
  split; [reflexivity|].
  change (update_status sid "failed" ?i (run_status_calls (writes sid ?l) ?db))
    with (run_status_calls (writes sid (l ++ [("failed", i)])) db).
  split; [exact (statuses_run_writes sid _ (w_db w) Hc)|].
  assert (Hc' := consistent_run
                   (writes sid ([("transcribing", None);
                                 ("summarizing", None);
                                 ("generating_image", None)]
                                ++ [("failed",
                                     Some [("error", msg);
                                           ("stage", "media_generation")])]))
                   _ Hc).
  change (run_status_calls (writes sid (?l ++ [("failed", ?i)])) ?db)
    with (update_status sid "failed" i (run_status_calls (writes sid l) db))
    in Hc' |- *.
  split; [exact (get_status_after_failed _ _ _ _ Hc')|].
  destruct (history_last_written sid "failed" _ _ Hc') as [n Hn].
  exact (f_equal (fmap row_additional_info) Hn).
Qed.

Lemma image_mode_failure_is_fatal_witness :
  ∃ w',
    _process_task 10 env_no_image "session-1" image0 "clip.wav" "image"
                  initial_world
    = Some (Raise "content policy violation", w')
    ∧ get_status "session-1" (w_db w')
      = Response {| resp_session_id := "session-1";
                    resp_status := "failed";
                    resp_stage := None; resp_result := None;
                    resp_error := Some "content policy violation" |}.
Proof.
  edestruct (image_mode_failure_is_fatal 10 env_no_image "session-1"
               image0 "clip.wav" initial_world)
    as (w' & Hrun & _ & _ & Hst & _);
    [ exact consistent_empty | run_eq | run_eq | run_eq | ].
  exists w'. split; [exact Hrun | exact Hst].
Defined.

(** X16. In "both" mode the job survives the failure of both branches: when
    the image branch raises and the body of the video branch raises, the
    failure of the image is recorded in the info of a 'generating_media'
    status, the job completes with a result that has no media field at
    all, and the title comes from the text model. *)
Theorem both_mode_survives_both_failures (fuel : nat) (e : env)
    (sid : string) (audio : list Byte.byte) (fname : string) (w : world)
    (transcript summary ip title imsg vmsg : string)
    (x1 x2 x3 x4 x5 x6 : ext) :
  consistent (w_db w) →
  _transcribe e audio fname (w_ext w) = Some (Ok transcript, x1) →
  _summarize e transcript sid x1 = Some (Ok summary, x2) →
  _generate_image_prompt e summary sid x2 = Some (Ok ip, x3) →
  _generate_image_from_prompt e ip summary sid x3 = Some (Raise imsg, x4) →
  video_body fuel e summary ip transcript sid x4 = Some (Raise vmsg, x5) →
  _generate_title e None summary (VisText ip) sid x5 = Some (Ok title, x6) →
  ∃ w',
    _process_task fuel e sid audio fname "both" w = Some (Ok tt, w')
    ∧ get_session_results sid (w_db w')
      = Some {| r_transcript := transcript; r_summary := summary;
                r_title := title; r_generation_mode := "both";
                r_status := "completed";
                r_image_url := None; r_image_prompt := None;
                r_video_url := None; r_video_prompt := None |}
    ∧ statuses sid (w_db w')
      = statuses sid (w_db w)
        ++ ["transcribing"; "summarizing"; "generating_media";
            "generating_media"; "generating_title"; "storing"; "completed"]
    ∧ row_additional_info <$> get_status_updates sid (w_db w')
      = (row_additional_info <$> get_status_updates sid (w_db w))
        ++ [None; None;
            Some [("image", "in_progress"); ("video", "in_progress")];
            Some [("image", "failed"); ("video", "in_progress");
                  ("image_error", imsg)];
            None; None; None].
Proof.
  intros Hc H1 H2 H3 H4 H5 H6.
  apply generate_video_failed in H5.
  eexists. split.
  { apply process_task_ok.
    exact (process_body_both fuel e sid audio fname _ _ _ _ _
             (Raise imsg) None None _ _ _ _ _ _ H1 H2 H3 H4 H5 H6). }
  cbn [w_db].
  split; [|split].
  - unfold get_session_results, notify_user.
    cbn [tbl_completed_results]. rewrite lookup_insert_eq. reflexivity.
  - exact (statuses_run_writes sid _ (w_db w) Hc).
  - change (get_status_updates sid (notify_user sid ?res ?db))
      with (get_status_updates sid db).
    rewrite (consistent_history sid _ (consistent_run _ _ Hc)).
    rewrite (consistent_history sid _ Hc).
    cbn [run_status_calls writes fmap list_fmap foldl fst snd
         call_session_id call_status call_info].
    cbn [update_status tbl_update_status].
    rewrite !eq_session_app, !fmap_app.
    cbn [eq_session List.filter row_session_id].
    rewrite String.eqb_refl. cbn [fmap list_fmap row_additional_info app
                                  info_truthy].
    rewrite <- !app_assoc. reflexivity.
Qed.

Lemma both_mode_survives_both_failures_witness :
  ∃ w',
    _process_task 10 env_no_image "session-1" image0 "clip.wav" "both"
                  initial_world
    = Some (Ok tt, w')
    ∧ get_session_results "session-1" (w_db w')
      = Some {| r_transcript := "we walked along the shore at dawn";
                r_summary := "A walk along the shore at dawn.";
                r_title := "Shoreline at Dawn";
                r_generation_mode := "both";
                r_status := "completed";
                r_image_url := None; r_image_prompt := None;
                r_video_url := None; r_video_prompt := None |}.
Proof.
  edestruct (both_mode_survives_both_failures 10 env_no_image "session-1"
               image0 "clip.wav" initial_world)
    as (w' & Hrun & Hres & _);
    [ exact consistent_empty | run_eq | run_eq | run_eq | run_eq | run_eq
    | run_eq | ].
  exists w'. split; [exact Hrun | exact Hres].
Defined.

End StageFailures.

Section StageMore.
Import Runtime.
Import Processor.
Import Neon.
Import Main.
Import Scenarios.

Ltac unfold_comp :=
  unfold mbind, Comp_bind, bind, mret, Comp_ret, ret, raise, try_except.

Ltac run_eq :=
  match goal with
  | |- ?lhs = ?rhs =>
      let v := eval vm_compute in lhs in
      unify rhs v; vm_compute; reflexivity
  end.

(** The media stage writes statuses only: the stored results stay. *)
Lemma generate_media_keeps_results (fuel : nat) (e : env)
    (sid mode transcript summary : string) (w w' : world)
    (r : result media) :
  generate_media fuel e sid mode transcript summary w = Some (r, w') →
  tbl_completed_results (w_db w') = tbl_completed_results (w_db w).
Proof.
  apply (rs_generate_media
           (fun db db' => tbl_completed_results db'
                          = tbl_completed_results db) sid).
  - reflexivity.
  - intros a b c Hab Hbc. congruence.
  - reflexivity.
Qed.

(** X17. Whatever the mode and whatever media were produced, a failure of
    the title request is fatal: the driver raises, the status endpoint
    shows 'failed' with the message, the failed row names the stage
    "title_generation", and no result is stored for the session. *)
Theorem title_failure_is_fatal (fuel : nat) (e : env) (sid : string)
    (audio : list Byte.byte) (fname mode : string) (w w3 : world)
    (transcript summary msg : string) (m : media) (x1 x2 x4 : ext) :
  consistent (w_db w) →
  _transcribe e audio fname (w_ext w) = Some (Ok transcript, x1) →
  _summarize e transcript sid x1 = Some (Ok summary, x2) →
  generate_media fuel e sid mode transcript summary
    {| w_db := run_status_calls
                 (writes sid [("transcribing", None); ("summarizing", None)])
                 (w_db w);
       w_ext := x2;
       w_current_stage := "media_generation" |}
  = Some (Ok m, w3) →
  _generate_title e (image_base64 m) summary
    (prompt_or (video_prompt m) (image_prompt m)) sid (w_ext w3)
  = Some (Raise msg, x4) →
  ∃ w',
    _process_task fuel e sid audio fname mode w = Some (Raise msg, w')
    ∧ get_session_results sid (w_db w') = get_session_results sid (w_db w)
    ∧ get_status sid (w_db w')
      = Response {| resp_session_id := sid; resp_status := "failed";
                    resp_stage := None; resp_result := None;
                    resp_error := Some msg |}
    ∧ row_additional_info <$> last (get_status_updates sid (w_db w'))
      = Some (Some [("error", msg); ("stage", "title_generation")]).
Proof.
  intros Hc H1 H2 H3 H4.
  assert (Hbody :
    process_body fuel e sid audio fname mode
      {| w_db := w_db w; w_ext := w_ext w;
         w_current_stage := "initialization" |}
    = Some (Raise msg,
            {| w_db := update_status sid "generating_title" None (w_db w3);
               w_ext := x4;
               w_current_stage := "title_generation" |})).
  { unfold process_body. unfold_comp.
    unfold set_stage, db_update_status, lift.
    cbn [w_ext w_db w_current_stage].
    rewrite H1. cbn [w_ext w_db w_current_stage]. rewrite H2.
    cbn [w_ext w_db w_current_stage].
    change (update_status sid "summarizing" None
              (update_status sid "transcribing" None (w_db w)))
      with (run_status_calls
              (writes sid [("transcribing", None); ("summarizing", None)])
              (w_db w)).
    rewrite H3. cbn [w_ext w_db w_current_stage]. rewrite H4.
    reflexivity. }
  assert (Hc3 : consistent (w_db w3)).
  { apply (kc_generate_media fuel e sid mode transcript summary _ _ _ H3).
    cbn [w_db]. apply consistent_run, Hc. }
  eexists. split; [exact (process_task_raise _ _ _ _ _ _ _ _ _ Hbody)|].
  cbn [w_db w_ext w_current_stage].
  assert (Hc' : consistent
                  (update_status sid "failed"
                     (Some [("error", msg); ("stage", "title_generation")])
                     (update_status sid "generating_title" None (w_db w3))))
    by auto using consistent_update_status.
  split; [|split].
  - unfold get_session_results.
    cbn [update_status tbl_completed_results].
    rewrite (generate_media_keeps_results _ _ _ _ _ _ _ _ _ H3).
    reflexivity.
  - exact (get_status_after_failed _ _ _ _ Hc').
  - destruct (history_last_written sid "failed" _ _ Hc') as [n Hn].
    exact (f_equal (fmap row_additional_info) Hn).
Qed.

Lemma title_failure_is_fatal_witness :
  ∃ w',
    _process_task 10 env_no_vision_title "session-1" image0 "clip.wav"
                  "image" initial_world
    = Some (Raise "model overloaded", w')
    ∧ get_session_results "session-1" (w_db w') = None
    ∧ row_additional_info <$> last (get_status_updates "session-1" (w_db w'))
      = Some (Some [("error", "model overloaded");
                    ("stage", "title_generation")]).
Proof.
  edestruct (title_failure_is_fatal 10 env_no_vision_title "session-1"
               image0 "clip.wav" "image" initial_world)
    as (w' & Hrun & Hres & _ & Hlast);
    [ exact consistent_empty | run_eq | run_eq | run_eq | run_eq | ].
  exists w'. split; [exact Hrun|]. split; [exact Hres | exact Hlast].
Defined.

Lemma process_task_ok_inv (fuel : nat) (e : env) (sid : string)
    (audio : list Byte.byte) (fname mode : string) (w w' : world) :
  _process_task fuel e sid audio fname mode w = Some (Ok tt, w') →
  process_body fuel e sid audio fname mode
    {| w_db := w_db w; w_ext := w_ext w;
       w_current_stage := "initialization" |}
  = Some (Ok tt, w').
Proof.
  unfold _process_task, set_stage, get_stage, db_update_status.
  unfold_comp.
  destruct (process_body fuel e sid audio fname mode _)
    as [[[[]|msg] w1]|]; intros H; [exact H | discriminate | discriminate].
Qed.

Lemma generate_media_image (fuel : nat) (e : env)
    (sid transcript summary : string) (w w' : world) (m : media) :
  generate_media fuel e sid "image" transcript summary w = Some (Ok m, w') →
  video_url m = None ∧ video_prompt m = None.
Proof.
  unfold generate_media.
  change (String.eqb "image" "both") with false.
  change (mode_in "image" ["image"; "both"]) with true.
  cbv iota. intros H.
  apply bind_ok_inv in H as (a & s & _ & H).
  apply bind_ok_inv in H as ([[u p] b] & s1 & _ & H).
  injection H as <- _. split; reflexivity.
Qed.

Lemma generate_media_video (fuel : nat) (e : env)
    (sid transcript summary : string) (w w' : world) (m : media) :
  generate_media fuel e sid "video" transcript summary w = Some (Ok m, w') →
  image_url m = None ∧ image_base64 m = None.
Proof.
  unfold generate_media.
  change (String.eqb "video" "both") with false.
  change (mode_in "video" ["image"; "both"]) with false.
  change (mode_in "video" ["video"; "both"]) with true.
  cbv iota. intros H.
  apply bind_ok_inv in H as (a & s & _ & H).
  apply bind_ok_inv in H as (ip & s1 & _ & H).
  apply bind_ok_inv in H as ([vu vp] & s2 & _ & H).
  injection H as <- _. split; reflexivity.
Qed.

(** X18. The stored result follows the mode. Whenever a job in "image"
    mode completes, its result has neither [video_url] nor
    [video_prompt]; whenever a job in "video" mode completes, its result
    has neither [image_url] nor [image_prompt]. *)
Theorem result_fields_follow_mode (fuel : nat) (e : env) (sid : string)
    (audio : list Byte.byte) (fname : string) (w w' : world) :
  (_process_task fuel e sid audio fname "image" w = Some (Ok tt, w') →
   ∃ res,
     get_session_results sid (w_db w') = Some res
     ∧ r_generation_mode res = "image"
     ∧ r_video_url res = None ∧ r_video_prompt res = None)
  ∧ (_process_task fuel e sid audio fname "video" w = Some (Ok tt, w') →
     ∃ res,
       get_session_results sid (w_db w') = Some res
       ∧ r_generation_mode res = "video"
       ∧ r_image_url res = None ∧ r_image_prompt res = None).
Proof.
  split; intros H; apply process_task_ok_inv in H;
    destruct (process_body_ok_inv _ _ _ _ _ _ _ _ H)
      as (tr & su & ti & m & w2 & w3 & db & Hm & Hdb);
    rewrite Hdb; eexists;
    (split; [unfold get_session_results, notify_user;
             cbn [update_status tbl_completed_results];
             apply lookup_insert_eq|]);
    cbn [r_generation_mode r_video_url r_video_prompt r_image_url
         r_image_prompt make_result_data];
    (split; [reflexivity|]).
  - destruct (generate_media_image _ _ _ _ _ _ _ _ Hm) as [-> ->].
    split; reflexivity.
  - destruct (generate_media_video _ _ _ _ _ _ _ _ Hm) as [-> _].
    split; reflexivity.
Qed.

Lemma result_fields_follow_mode_witness :
  (λ w, r_video_url <$> get_session_results "session-1" (w_db w))
    <$> final_state (_process_task 10 env_no_project "session-1" image0
                                   "clip.wav" "image" initial_world)
  = Some (Some None).
Proof.
  destruct (_process_task 10 env_no_project "session-1" image0 "clip.wav"
                          "image" initial_world)
    as [[[[]|msg] w']|] eqn:E.
  - destruct (proj1 (result_fields_follow_mode _ _ _ _ _ _ _) E)
      as (res & Hres & _ & Hv & _).
    cbn. rewrite Hres. cbn. rewrite Hv. reflexivity.
  - exfalso. vm_compute in E. discriminate E.
  - exfalso. vm_compute in E. discriminate E.
Defined.

(** X19. With no video client yet and no project configured (the variable
    is missing or empty), the video step gives [(None, None)] at once:
    no request is issued - neither for the brief nor to the provider - and
    no file is written. *)
Theorem video_without_project (fuel : nat) (e : env)
    (summary ip transcript sid : string) (x : ext) :
  x_veo_client x = false →
  GCP_PROJECT_ID e = None ∨ GCP_PROJECT_ID e = Some EmptyString →
  ∃ x',
    _generate_video fuel e summary ip transcript sid x
    = Some (Ok (None, None), x')
    ∧ x_calls x' = x_calls x
    ∧ x_files x' = x_files x
    ∧ x_polls x' = x_polls x
    ∧ x_veo_client x' = false.
Proof.
  intros Hv Hg.
  unfold _generate_video, video_body, submit_video,
    init_video_prompt_generator, init_veo_client.
  unfold_comp. cbn [x_veo_client]. rewrite Hv.
  destruct Hg as [-> | ->]; cbn [PyStr.truthy];
    eexists; (split; [reflexivity|]); cbn; auto.
Qed.

Lemma video_without_project_witness :
  ∃ x',
    _generate_video 10 env_no_project "A walk along the shore at dawn."
                    "A luminous tide pool under a pink sky"
                    "we walked along the shore at dawn" "session-1" empty_ext
    = Some (Ok (None, None), x')
    ∧ x_calls x' = x_calls empty_ext
    ∧ x_files x' = x_files empty_ext
    ∧ x_polls x' = x_polls empty_ext
    ∧ x_veo_client x' = false.
Proof.
  apply video_without_project; [reflexivity | left; reflexivity].
Defined.

Lemma video_paths_differ (sid : string) :
  "generated_videos/" +:+ sid +:+ "_gcs.txt"
  ≠ "generated_videos/" +:+ sid +:+ ".mp4".
Proof.
  intros H. apply (inj (String.app "generated_videos/")) in H.
  apply (inj (String.app sid)) in H. discriminate H.
Qed.

(** X20. When the wait reports 'completed' with a storage URI, the video
    step returns the local name [generated_videos/<id>.mp4] as
    [video_url], but the only file it writes is
    [generated_videos/<id>_gcs.txt], holding the URI: the file named by
    [video_url] is not created, and nothing is uploaded. *)
Theorem resolve_video_storage_uri (e : env) (sid summary name uri : string)
    (vp : VideoPromptGen.VideoPrompt) (r : video_result) (x : ext) :
  vr_status r = Some "completed" →
  vr_videoUri r = Some uri →
  uri ≠ EmptyString →
  ∃ x',
    resolve_video e sid summary vp name r x
    = Some (Ok (Some ("generated_videos/" +:+ sid +:+ ".mp4")), x')
    ∧ x_files x' !! ("generated_videos/" +:+ sid +:+ "_gcs.txt")
      = Some (Text uri)
    ∧ x_files x' !! ("generated_videos/" +:+ sid +:+ ".mp4")
      = x_files x !! ("generated_videos/" +:+ sid +:+ ".mp4")
    ∧ x_calls x' = x_calls x.
Proof.
  intros Hs Hu Hne.
  unfold resolve_video, write_file. unfold_comp.
  rewrite Hs, Hu. cbn [status_in existsb String.eqb PyStr.truthy_opt].
  assert (PyStr.truthy uri = true) as Ht
    by (destruct uri; [congruence | reflexivity]).
  change (status_in (Some "completed") ["completed"]) with true.
  cbv iota. rewrite Ht.
  eexists. split; [reflexivity|]. cbn [put_file x_files x_calls from_option id].
  split; [apply lookup_insert_eq|]. split; [|reflexivity].
  apply lookup_insert_ne, video_paths_differ.
Qed.

Lemma resolve_video_storage_uri_witness :
  ∃ x',
    resolve_video env_video_ready "session-1"
      "A walk along the shore at dawn." brief0 "operations/42"
      {| vr_status := Some "completed"; vr_operation_id := None;
         vr_message := None;
         vr_videoUri := Some "gs://pixeltalk/videos/session-1/sample_0.mp4";
         vr_videoBase64 := None; vr_mimeType := Some "video/mp4" |}
      empty_ext
    = Some (Ok (Some "generated_videos/session-1.mp4"), x')
    ∧ x_files x' !! "generated_videos/session-1_gcs.txt"
      = Some (Text "gs://pixeltalk/videos/session-1/sample_0.mp4")
    ∧ x_files x' !! "generated_videos/session-1.mp4" = None.
Proof.
  destruct (resolve_video_storage_uri env_video_ready "session-1"
              "A walk along the shore at dawn." "operations/42"
              "gs://pixeltalk/videos/session-1/sample_0.mp4" brief0
              {| vr_status := Some "completed"; vr_operation_id := None;
                 vr_message := None;
                 vr_videoUri :=
                   Some "gs://pixeltalk/videos/session-1/sample_0.mp4";
                 vr_videoBase64 := None; vr_mimeType := Some "video/mp4" |}
              empty_ext eq_refl eq_refl)
    as (x' & Hrun & Hg & Hm & _); [discriminate|].
  exists x'. split; [exact Hrun|]. split; [exact Hg|].
  exact (eq_trans Hm eq_refl).
Defined.

(** X21. When the image model answers with neither a URL nor inline data,
    [_generate_image_from_prompt] raises "No image data received from API"
    right after that request: nothing is downloaded, uploaded or written. *)
Theorem image_without_data (e : env) (prompt summary sid : string)
    (d : image_data) (x : ext) :
  images_generate e prompt = Ok d →
  PyStr.truthy_opt (img_url d) = false →
  PyStr.truthy_opt (img_b64_json d) = false →
  ∃ x',
    _generate_image_from_prompt e prompt summary sid x
    = Some (Raise "No image data received from API", x')
    ∧ x_calls x' = x_calls x ++ [CallImages prompt]
    ∧ x_files x' = x_files x.
Proof.
  intros Hd Hu Hb.
  unfold _generate_image_from_prompt, request. unfold_comp.
  rewrite Hd, Hu.
  assert (PyStr.truthy (default EmptyString (img_b64_json d)) = false) as ->.
  { destruct (img_b64_json d); [exact Hb | reflexivity]. }
  eexists. split; [reflexivity|]. split; reflexivity.
Qed.

Lemma image_without_data_witness :
  ∃ x',
    _generate_image_from_prompt env_empty_image
      "A luminous tide pool under a pink sky"
      "A walk along the shore at dawn." "session-1" empty_ext
    = Some (Raise "No image data received from API", x')
    ∧ x_calls x'
      = x_calls empty_ext
        ++ [CallImages "A luminous tide pool under a pink sky"]
    ∧ x_files x' = x_files empty_ext.
Proof.
  eapply image_without_data; reflexivity.
Defined.

(** Without the media service, storing an image issues no request:
    the bytes go to [generated_images/<id>.png], or to
    [generated_images/test_image.png] when the session id is empty, and
    that path is the URL. *)
Theorem store_image_local_only (e : env) (content : list Byte.byte)
    (sid summary rp : string) (x : ext) :
  cloudinary_service e = false →
  ∃ url,
    url = (if decide (sid = EmptyString)
           then "generated_images/test_image.png"
           else "generated_images/" +:+ sid +:+ ".png")
    ∧ store_image e content sid summary rp x
      = Some (Ok url, put_file url (Bytes content) x)
    ∧ x_calls (put_file url (Bytes content) x) = x_calls x.
Proof.
  intros Hc. unfold store_image, write_file, local_image_path.
  rewrite Hc. unfold_comp.
  destruct sid as [|c s]; eexists; (split; [reflexivity|]);
    split; reflexivity.
Qed.

Lemma store_image_local_only_witness :
  ∃ url,
    url = (if decide (EmptyString = EmptyString)
           then "generated_images/test_image.png"
           else "generated_images/" +:+ EmptyString +:+ ".png")
    ∧ store_image env_no_project image0 EmptyString "summary" "prompt"
                  empty_ext
      = Some (Ok url, put_file url (Bytes image0) empty_ext)
    ∧ x_calls (put_file url (Bytes image0) empty_ext) = x_calls empty_ext.
Proof.
  apply store_image_local_only. reflexivity.
Defined.

(** The title request. With a non-empty image the vision model is
    asked, with the summary in the text part and the image as a data URL.
    Otherwise the text model is asked; its input is the summary followed by
    a "Visual concept" that is the brief whenever there is one, else the
    image prompt when it is not empty; with neither, the input is the
    summary alone. Exactly one request is issued in each case. *)
Theorem title_request (e : env) (b64 summary sid : string)
    (vp : option VideoPromptGen.VideoPrompt) (ip : option string)
    (x : ext) :
  (b64 ≠ EmptyString →
   _generate_title e (Some b64) summary (prompt_or vp ip) sid x
   = request (CallVisionChat (vision_text summary)
                             ("data:image/png;base64," +:+ b64))
             (chat_completions_create e (vision_text summary)
                                      ("data:image/png;base64," +:+ b64)) x)
  ∧ (∀ image, image = None ∨ image = Some EmptyString →
       _generate_title e image summary (prompt_or vp ip) sid x
       = let input :=
           match vp, ip with
           | Some brief, _ =>
               "Summary: " +:+ summary +:+ PyStr.nl +:+ PyStr.nl
               +:+ "Visual concept: " +:+ str_of_brief e brief
           | None, Some (String c s) =>
               "Summary: " +:+ summary +:+ PyStr.nl +:+ PyStr.nl
               +:+ "Visual concept: " +:+ String c s
           | None, _ => summary
           end in
         request (CallResponses title_instructions input)
                 (responses_create e title_instructions input) x).
Proof.
  split.
  - intros Hb. unfold _generate_title.
    assert (PyStr.truthy_opt (Some b64) = true) as ->
      by (destruct b64; [congruence | reflexivity]).
    reflexivity.
  - intros image [-> | ->]; unfold _generate_title, title_input;
      cbn [PyStr.truthy_opt PyStr.truthy];
      destruct vp as [brief|], ip as [[|c s]|]; reflexivity.
Qed.

End StageMore.

(* ===================================================================== *)
(** ** More on the video prompt (services/video_prompt.py) *)
(* ===================================================================== *)

Section PromptMore.
Import Runtime.
Import Processor.
Import VideoPromptGen.
Import Scenarios.

Lemma slice_to_slice_to (n m : nat) (s : string) :
  (n ≤ m)%nat → PyStr.slice_to n (PyStr.slice_to m s) = PyStr.slice_to n s.
Proof.
  revert m s. induction n as [|n IH]; intros m s Hle.
  - destruct (PyStr.slice_to m s); reflexivity.
  - destruct m as [|m]; [lia|]. destruct s as [|c s]; [reflexivity|].
    cbn [PyStr.slice_to]. rewrite IH by lia. reflexivity.
Qed.

Lemma len_slice_to (n : nat) (s : string) :
  PyStr.len (PyStr.slice_to n s) = Nat.min n (PyStr.len s).
Proof.
  unfold PyStr.len. revert s. induction n as [|n IH]; intros s.
  - destruct s; reflexivity.
  - destruct s as [|c s]; [reflexivity|].
    cbn [PyStr.slice_to String.length Nat.min]. rewrite IH. reflexivity.
Qed.

(** X22. The transcript excerpt of the brief request. The video step hands
    over the first 500 characters of the transcript and the prompt
    builder keeps the first 200 of those, so the excerpt in the user
    message is the first 200 characters of the transcript followed by
    "...", whatever its length; with an empty transcript the excerpt line
    is left out, and with an empty image prompt the visual-concept line
    is. *)
Theorem brief_request_excerpt (e : env) (summary ip transcript : string)
    (x : ext) :
  generate_video_prompt e summary ip
    (if PyStr.truthy transcript
     then Some (PyStr.slice_to 500 transcript) else None) x
  = (let message :=
       PyStr.join PyStr.nl
         (["Create a cinematic 8-second video prompt based on this content:";
           PyStr.nl +:+ "Audio Summary: " +:+ summary]
          ++ (if decide (ip = EmptyString) then []
              else [PyStr.nl +:+ "Related Visual Concept: " +:+ ip])
          ++ (if decide (transcript = EmptyString) then []
              else [PyStr.nl +:+ "Transcript excerpt: "
                    +:+ PyStr.slice_to 200 transcript +:+ "..."])
          ++ [PyStr.nl +:+ "Transform this into an engaging, cinematic video narrative with rich visual details. The video should capture the emotional essence and key themes of the audio."]) in
     request (CallParse message) (chat_completions_parse e message) x)
  ∧ (PyStr.len (PyStr.slice_to 200 transcript) ≤ 200)%nat.
Proof.
  split; [|rewrite len_slice_to; lia].
  unfold generate_video_prompt, user_prompt. cbv zeta.
  destruct ip as [|c1 ip], transcript as [|c2 tr];
    cbn [PyStr.truthy PyStr.truthy_opt decide]; try reflexivity.
  - change (PyStr.truthy_opt (Some (PyStr.slice_to 500 (String c2 tr))))
      with true.
    cbv iota.
    change (default EmptyString (Some (PyStr.slice_to 500 (String c2 tr))))
      with (PyStr.slice_to 500 (String c2 tr)).
    rewrite slice_to_slice_to by lia. reflexivity.
  - change (PyStr.truthy_opt (Some (PyStr.slice_to 500 (String c2 tr))))
      with true.
    cbv iota.
    change (default EmptyString (Some (PyStr.slice_to 500 (String c2 tr))))
      with (PyStr.slice_to 500 (String c2 tr)).
    rewrite slice_to_slice_to by lia. reflexivity.
Qed.

(** X23. [format_for_veo] on any brief, empty lists included: a brief
    without elements gets no "The scene includes" clause and a brief
    without keywords no "Keywords:" clause - the clause is dropped, not
    left empty - while the other clauses keep their place. *)
Theorem format_for_veo_any_brief (p : VideoPrompt) :
  format_for_veo p
  = description p
    +:+ " Visual style: " +:+ style p +:+ "."
    +:+ " Camera: " +:+ camera p +:+ "."
    +:+ " Lighting: " +:+ lighting p +:+ "."
    +:+ (if decide (environment p = EmptyString) then EmptyString
         else " Setting: " +:+ environment p +:+ ".")
    +:+ (match elements p with
         | [] => EmptyString
         | _ :: _ =>
             " The scene includes "
             +:+ PyStr.join ", " (take 5 (elements p))
             +:+ (if decide (5 < length (elements p))%nat
                  then ", and " +:+ PyStr.of_nat (length (elements p) - 5)
                       +:+ " more detailed elements"
                  else EmptyString)
             +:+ "."
         end)
    +:+ " Motion: " +:+ motion p +:+ "."
    +:+ " The video ends with " +:+ ending p +:+ "."
    +:+ (match keywords p with
         | [] => EmptyString
         | _ :: _ => " Keywords: " +:+ PyStr.join ", " (keywords p) +:+ "."
         end)
    +:+ (if Contract.is_none_ci (text p) then " No text overlays."
         else EmptyString).
Proof.
  unfold format_for_veo. rewrite lower_is_none.
  assert (Henv : PyStr.truthy (environment p)
                 = if decide (environment p = EmptyString)
                   then false else true).
  { destruct (environment p); reflexivity. }
  rewrite Henv.
  assert (Hlen : (5 <? length (elements p))%nat
                 = if decide (5 < length (elements p))%nat
                   then true else false).
  { destruct (decide (5 < length (elements p))%nat) as [H|H].
    - apply Nat.ltb_lt; exact H.
    - apply Nat.ltb_ge; lia. }
  rewrite Hlen.
  destruct (decide (environment p = EmptyString)),
           (decide (5 < length (elements p))%nat),
           (Contract.is_none_ci (text p)),
           (elements p) as [|el els], (keywords p) as [|kw kws];
    cbn [app nonempty]; rewrite ?join_cons, ?join_one;
    rewrite ?append_assoc, ?append_empty_r; reflexivity.
Qed.

(** X24. Only the first five elements of a brief, and how many there are,
    reach the video generator: replacing the elements by a list of the
    same length with the same first five leaves the prompt unchanged. *)
Theorem format_for_veo_first_five (p : VideoPrompt) (others : list string) :
  length others = length (elements p) →
  take 5 others = take 5 (elements p) →
  format_for_veo
    {| description := description p; style := style p; camera := camera p;
       lighting := lighting p; environment := environment p;
       elements := others;
       motion := motion p; ending := ending p; text := text p;
       keywords := keywords p |}
  = format_for_veo p.
Proof.
  intros Hlen Htake. unfold format_for_veo.
  cbn [description style camera lighting environment elements motion ending
       text keywords].
  rewrite Hlen, Htake.
  assert (nonempty others = nonempty (elements p)) as ->.
  { destruct others, (elements p); try reflexivity; discriminate Hlen. }
  reflexivity.
Qed.

Lemma format_for_veo_first_five_witness :
  format_for_veo
    {| description := description brief0; style := style brief0;
       camera := camera brief0; lighting := lighting brief0;
       environment := environment brief0;
       elements := ["crab"; "kelp"; "foam"; "gull"; "mist"; "a"; "b"; "c"];
       motion := motion brief0; ending := ending brief0;
       text := text brief0; keywords := keywords brief0 |}
  = format_for_veo brief0.
Proof.
  apply format_for_veo_first_five; reflexivity.
Defined.

End PromptMore.
